(** * A shallow embedding of [app.py], the personal finance ledger

    The ledger is one Flask view, [index], over one SQLite table,
    [records].  This file embeds the view, the statistics query
    [get_stats] and the table they share, and proves the properties the
    specification states about them.

    Conventions of the embedding.

    - A Python [str] is a Rocq [string] holding its UTF-8 encoding.  That
      is how SQLite stores a TEXT value, and the BINARY collation used by
      every comparison of the schema is the bytewise order
      [String.compare].
    - A finite double is the rational it stands for ([Q]), and doubles
      compare as rationals.  The aggregates are given twice: with exact
      sums ([get_stats]) and with the addition as a parameter
      ([get_stats_with]), which [double_add] instantiates with the
      rounded sum of doubles.
    - The builtin [float()] applied to a string is a parameter
      [py_float : string -> option Q] ([None] stands for [ValueError]);
      [add_record_py] takes it with the values that are not finite.
      The clock is a parameter too ([today], [current_timestamp]).
    - The database file is a value of type [database]; a connection works
      on a private copy that reaches the file at [commit].  Failures of
      the storage engine itself (I/O errors, a full disk) are not
      modelled. *)

From Stdlib Require Import Bool List String Ascii ZArith NArith QArith Qabs Lia.
From Stdlib Require Import Permutation Sorted.
From Stdlib Require Import Setoid Morphisms RelationClasses FunInd.
Import ListNotations.

Local Open Scope string_scope.
Local Open Scope Z_scope.

(* ================================================================= *)
(** ** Python strings *)

Module PyStr.

(** Truth value of a [str]: every string but the empty one. *)
Definition truthy (s : string) : bool :=
  match s with
  | EmptyString => false
  | String _ _ => true
  end.

(** [a or b] on strings that may be [None]. *)
Definition or_else (a : option string) (b : string) : string :=
  match a with
  | Some s => if truthy s then s else b
  | None => b
  end.

Definition byte (c : ascii) : N := N_of_ascii c.

(** The characters [str.isspace] accepts, by the length of their UTF-8
    encoding: U+0009..U+000D, U+001C..U+0020; U+0085, U+00A0; U+1680,
    U+2000..U+200A, U+2028, U+2029, U+202F, U+205F, U+3000. *)
Definition space1 (a : ascii) : bool :=
  let x := byte a in
  ((9 <=? x) && (x <=? 13) || (28 <=? x) && (x <=? 32))%N.

Definition space2 (a b : ascii) : bool :=
  let x := byte a in
  let y := byte b in
  ((x =? 194) && ((y =? 133) || (y =? 160)))%N.

Definition space3 (a b c : ascii) : bool :=
  let x := byte a in
  let y := byte b in
  let z := byte c in
  ((x =? 225) && (y =? 154) && (z =? 128)
   || (x =? 226) && (y =? 128)
      && ((128 <=? z) && (z <=? 138) || (z =? 168) || (z =? 169) || (z =? 175))
   || (x =? 226) && (y =? 129) && (z =? 159)
   || (x =? 227) && (y =? 128) && (z =? 128))%N.

(** [str.lstrip()]. *)
Fixpoint lstrip (s : string) : string :=
  match s with
  | EmptyString => EmptyString
  | String a r1 =>
      if space1 a then lstrip r1
      else
        match r1 with
        | EmptyString => s
        | String b r2 =>
            if space2 a b then lstrip r2
            else
              match r2 with
              | EmptyString => s
              | String c r3 => if space3 a b c then lstrip r3 else s
              end
        end
  end.

(** [lstrip] on the reversed byte sequence: the encoded characters
    are met last byte first. *)
Fixpoint lstrip_rev (s : list ascii) : list ascii :=
  match s with
  | [] => []
  | c :: r1 =>
      if space1 c then lstrip_rev r1
      else
        match r1 with
        | [] => s
        | b :: r2 =>
            if space2 b c then lstrip_rev r2
            else
              match r2 with
              | [] => s
              | a :: r3 => if space3 a b c then lstrip_rev r3 else s
              end
        end
  end.

(** [str.rstrip()]. *)
Definition rstrip (s : string) : string :=
  string_of_list_ascii (rev (lstrip_rev (rev (list_ascii_of_string s)))).

(** [str.strip()]. *)
Definition strip (s : string) : string := rstrip (lstrip s).

End PyStr.

(* ================================================================= *)
(** ** [datetime.date] *)

Module PyDate.

Record t : Type := mk { year : Z; month : Z; day : Z }.

Definition is_leap (y : Z) : bool :=
  (y mod 4 =? 0) && (negb (y mod 100 =? 0) || (y mod 400 =? 0)).

Definition days_in_month (y m : Z) : Z :=
  if m =? 2 then (if is_leap y then 29 else 28)
  else if (m =? 4) || (m =? 6) || (m =? 9) || (m =? 11) then 30
  else 31.

Definition MINYEAR : Z := 1.
Definition MAXYEAR : Z := 9999.

(** [date(y, m, d)]; [None] stands for the [ValueError] raised for a
    day that does not exist. *)
Definition date (y m d : Z) : option t :=
  if (MINYEAR <=? y) && (y <=? MAXYEAR)
     && (1 <=? m) && (m <=? 12)
     && (1 <=? d) && (d <=? days_in_month y m)
  then Some (mk y m d)
  else None.

(** [x.replace(day=d)]. *)
Definition replace_day (x : t) (d : Z) : option t :=
  date (year x) (month x) d.

(** [x - timedelta(days=1)]; [None] stands for the [OverflowError]
    raised below [date.min]. *)
Definition sub_one_day (x : t) : option t :=
  if 1 <? day x then date (year x) (month x) (day x - 1)
  else if 1 <? month x
       then date (year x) (month x - 1) (days_in_month (year x) (month x - 1))
       else date (year x - 1) 12 31.

Definition digit (n : Z) : ascii :=
  ascii_of_N (48 + Z.to_N (n mod 10)).

(** The [w] low decimal digits of [n], most significant first. *)
Fixpoint digits (w : nat) (n : Z) : string :=
  match w with
  | O => EmptyString
  | S w' => digits w' (n / 10) ++ String (digit n) EmptyString
  end.

(** [x.isoformat()], that is ["%04d-%02d-%02d"]. *)
Definition isoformat (x : t) : string :=
  digits 4 (year x) ++ "-" ++ digits 2 (month x) ++ "-" ++ digits 2 (day x).

End PyDate.

(** [get_current_month_range], with the clock's [date.today()] as an
    argument. *)
Definition get_current_month_range (today : PyDate.t)
  : option (PyDate.t * PyDate.t) :=
  match PyDate.replace_day today 1 with
  | None => None
  | Some first_day =>
      let next_month_first :=
        if PyDate.month today =? 12
        then PyDate.date (PyDate.year today + 1) 1 1
        else PyDate.date (PyDate.year today) (PyDate.month today + 1) 1 in
      match next_month_first with
      | None => None
      | Some nmf =>
          match PyDate.sub_one_day nmf with
          | None => None
          | Some last_day => Some (first_day, last_day)
          end
      end
  end.

(* ================================================================= *)
(** ** The [records] table *)

(** One row of
    [records(id, amount, type, category, date, note, created_at)]. *)
Module Row.
Record t : Type := mk {
  id : Z;                  (* INTEGER PRIMARY KEY AUTOINCREMENT *)
  amount : Q;              (* REAL NOT NULL *)
  type : string;           (* TEXT CHECK(type IN ('income','expense')) NOT NULL *)
  category : string;       (* TEXT NOT NULL *)
  date : string;           (* TEXT NOT NULL, YYYY-MM-DD *)
  note : option string;    (* TEXT *)
  created_at : string      (* TEXT DEFAULT CURRENT_TIMESTAMP *)
}.
End Row.

(** What [SELECT id, amount, type, category, date, note] fetches. *)
Module Detail.
Record t : Type := mk {
  id : Z;
  amount : Q;
  type : string;
  category : string;
  date : string;
  note : option string
}.

Definition of_row (r : Row.t) : t :=
  mk (Row.id r) (Row.amount r) (Row.type r) (Row.category r)
     (Row.date r) (Row.note r).
End Detail.

(** The database file: the table in rowid order and the counter kept
    for AUTOINCREMENT. *)
Record database : Type := mkdb {
  records : list Row.t;
  sqlite_sequence : Z
}.

(** A connection: the file it was opened on and the private state of
    its transaction. *)
Record connection : Type := mkcon {
  on_disk : database;
  in_txn : database
}.

Definition get_db_connection (db : database) : connection :=
  mkcon db db.

(** [con.commit()]. *)
Definition commit (con : connection) : connection :=
  mkcon (in_txn con) (in_txn con).

(** [con.close()]: what was not committed is rolled back. *)
Definition close (con : connection) : database := on_disk con.

(** *** WHERE clauses *)

(** One element of [conditions], with the entries of [params] it
    consumes. *)
Inductive condition : Type :=
| DateBetween (lo hi : string)      (* date BETWEEN ? AND ? *)
| CategoryEq (c : string)           (* category = ? *)
| AmountGe (m : Q)                  (* amount >= ? *)
| AmountLe (m : Q).                 (* amount <= ? *)

Definition holds (c : condition) (r : Row.t) : bool :=
  match c with
  | DateBetween lo hi =>
      String.leb lo (Row.date r) && String.leb (Row.date r) hi
  | CategoryEq c => String.eqb (Row.category r) c
  | AmountGe m => Qle_bool m (Row.amount r)
  | AmountLe m => Qle_bool (Row.amount r) m
  end.

(** [" AND ".join(conditions)]. *)
Definition where_clause (conditions : list condition) (r : Row.t) : bool :=
  forallb (fun c => holds c r) conditions.

Definition type_is (ty : string) (r : Row.t) : bool :=
  String.eqb (Row.type r) ty.

(** *** Aggregates *)

(** [SUM(amount)]: NULL over no row. *)
Definition sql_sum (xs : list Q) : option Q :=
  match xs with
  | [] => None
  | x :: xs' => Some (fold_left Qplus xs' x)
  end.

(** [COALESCE(v, d)]. *)
Definition coalesce (v : option Q) (d : Q) : Q :=
  match v with
  | Some x => x
  | None => d
  end.

(** Python's [sum(xs)]. *)
Definition py_sum (xs : list Q) : Q := fold_left Qplus xs 0%Q.

(** Python's [x or 0] on a number. *)
Definition or_zero (x : Q) : Q := if Qeq_bool x 0 then 0%Q else x.

(** *** ORDER BY *)

(** A stable sort by insertion; [leb a b] says that [a] may come
    before [b]. *)
Fixpoint insert_by {A : Type} (leb : A -> A -> bool) (x : A) (l : list A)
  : list A :=
  match l with
  | [] => [x]
  | y :: l' => if leb x y then x :: l else y :: insert_by leb x l'
  end.

Definition order_by {A : Type} (leb : A -> A -> bool) (l : list A) : list A :=
  fold_right (insert_by leb) [] l.

(** [ORDER BY date DESC, id DESC]. *)
Definition date_desc_id_desc (a b : Row.t) : bool :=
  match String.compare (Row.date a) (Row.date b) with
  | Gt => true
  | Lt => false
  | Eq => Row.id b <=? Row.id a
  end.

(** [ORDER BY total DESC] on the [(category, total)] groups. *)
Definition total_desc (a b : string * Q) : bool :=
  Qle_bool (snd b) (snd a).

(** *** The statements the application executes *)

(** [SELECT COALESCE(SUM(amount), 0) FROM records WHERE type = ty AND w]. *)
Definition select_total (ty : string) (w : list condition)
    (con : connection) : connection * Q :=
  let rows :=
    filter (fun r => type_is ty r && where_clause w r) (records (in_txn con)) in
  (con, coalesce (sql_sum (map Row.amount rows)) 0%Q).

(** The groups of [GROUP BY category], one per distinct category. *)
Definition group_by_category (rows : list Row.t) : list (string * Q) :=
  map (fun c =>
         (c, coalesce
               (sql_sum (map Row.amount
                           (filter (fun r => String.eqb (Row.category r) c) rows)))
               0%Q))
      (nodup string_dec (map Row.category rows)).

(** [SELECT category, COALESCE(SUM(amount), 0) AS total FROM records
     WHERE type = ty AND w GROUP BY category ORDER BY total DESC].
    The order of groups with equal totals is left open by SQL; here
    they stay in the order of [group_by_category]. *)
Definition select_by_category (ty : string) (w : list condition)
    (con : connection) : connection * list (string * Q) :=
  let rows :=
    filter (fun r => type_is ty r && where_clause w r) (records (in_txn con)) in
  (con, order_by total_desc (group_by_category rows)).

(** [SELECT id, amount, type, category, date, note FROM records
     WHERE w ORDER BY date DESC, id DESC]. *)
Definition select_details (w : list condition)
    (con : connection) : connection * list Detail.t :=
  let rows := filter (where_clause w) (records (in_txn con)) in
  (con, map Detail.of_row (order_by date_desc_id_desc rows)).

Definition max_id (rows : list Row.t) : Z :=
  fold_right (fun r m => Z.max (Row.id r) m) 0 rows.

(** [INSERT INTO records (amount, type, category, date, note)
     VALUES (?, ?, ?, ?, ?)], with [None] for a Python [None] bound to
    [type].  The result [None] stands for the [IntegrityError] of the
    NOT NULL and CHECK constraints on [type]; [now] is
    CURRENT_TIMESTAMP. *)
Definition insert_record (now : string) (amount : Q) (ty : option string)
    (category date : string) (note : option string) (con : connection)
  : option connection :=
  match ty with
  | None => None
  | Some ty =>
      if String.eqb ty "income" || String.eqb ty "expense" then
        let db := in_txn con in
        let new_id := Z.max (sqlite_sequence db) (max_id (records db)) + 1 in
        let r := Row.mk new_id amount ty category date note now in
        Some (mkcon (on_disk con) (mkdb (records db ++ [r]) new_id))
      else None
  end.

(* ================================================================= *)
(** ** The statistics query *)

Module Stats.
Record t : Type := mk {
  total_income : Q;
  total_expense : Q;
  category_labels : list string;
  category_amounts : list Q;
  records : list Detail.t
}.
End Stats.

(** The [conditions] and [params] that [get_stats] composes. *)
Definition build_conditions (start_date end_date : string)
    (category : option string) (min_amount max_amount : option Q)
  : list condition :=
  let conditions := [DateBetween start_date end_date] in
  let conditions :=
    match category with
    | Some c =>
        if PyStr.truthy c && PyStr.truthy (PyStr.strip c)
        then (conditions ++ [CategoryEq (PyStr.strip c)])%list
        else conditions
    | None => conditions
    end in
  let conditions :=
    match min_amount with
    | Some m => (conditions ++ [AmountGe m])%list
    | None => conditions
    end in
  let conditions :=
    match max_amount with
    | Some m => (conditions ++ [AmountLe m])%list
    | None => conditions
    end in
  conditions.

(** [get_stats]: the database file goes in and comes out, so that what
    the four statements and [con.close()] do to it is part of the
    result. *)
Definition get_stats (start_date end_date : string)
    (category : option string) (min_amount max_amount : option Q)
    (db : database) : database * Stats.t :=
  let con := get_db_connection db in
  let conditions :=
    build_conditions start_date end_date category min_amount max_amount in
  let '(con, total_income) := select_total "income" conditions con in
  let total_income := or_zero total_income in
  let '(con, total_expense) := select_total "expense" conditions con in
  let total_expense := or_zero total_expense in
  let '(con, rows) := select_by_category "expense" conditions con in
  let category_labels := map fst rows in
  let category_amounts := map snd rows in
  let '(con, records) := select_details conditions con in
  let db := close con in
  (db, Stats.mk total_income total_expense category_labels category_amounts
         records).

(* ================================================================= *)
(** ** The view *)

(** [request.form]: the submitted fields in order; [get] answers with
    the first value of a key. *)
Definition form : Type := list (string * string).

Fixpoint form_get (f : form) (key : string) : option string :=
  match f with
  | [] => None
  | (k, v) :: f' => if String.eqb k key then Some v else form_get f' key
  end.

Definition form_get_default (f : form) (key default : string) : string :=
  match form_get f key with
  | Some v => v
  | None => default
  end.

(** The form without the field [key]. *)
Definition form_without (key : string) (f : form) : form :=
  filter (fun kv => negb (String.eqb (fst kv) key)) f.

(** The methods of the route.  The view only asks whether the method
    is POST. *)
Inductive http_method : Type := GET | POST.

Record request : Type := mkreq {
  method : http_method;
  req_form : form
}.

(** [flash(message, category)]. *)
Definition flash : Type := (string * string)%type.

Definition flash_category (f : flash) : string := snd f.

Definition MSG_AMOUNT : flash := ("金額格式不正確，請輸入數字。", "danger").
Definition MSG_TYPE : flash := ("類型必須為收入或支出。", "danger").
Definition MSG_CATEGORY : flash := ("請輸入分類。", "danger").
Definition MSG_ADDED : flash := ("成功新增一筆記錄！", "success").
Definition MSG_MIN : flash := ("最低金額格式錯誤，已忽略此條件。", "warning").
Definition MSG_MAX : flash := ("最高金額格式錯誤，已忽略此條件。", "warning").
Definition MSG_BUDGET : flash := ("預算金額格式錯誤，已使用預設值。", "warning").

Definition DEFAULT_BUDGET : Q := 30000%Q.

(** The keyword arguments of [render_template("index.html", ...)]. *)
Module Ctx.
Record t : Type := mk {
  start_date : string;
  end_date : string;
  category_filter : string;
  min_amount : option Q;        (* [None] is rendered as the empty string *)
  max_amount : option Q;
  budget : Q;
  total_income : Q;
  total_expense : Q;
  balance : Q;
  budget_diff : Q;
  category_labels : list string;
  category_amounts : list Q;
  records : list Detail.t;
  default_budget : Q
}.
End Ctx.

Inductive response : Type :=
| RedirectToIndex               (* redirect(url_for("index")) *)
| RenderIndex (ctx : Ctx.t)     (* render_template("index.html", ...) *)
| InternalServerError.          (* an exception left the view *)

(** What one call of the view leaves behind: the database file, the
    messages flashed, the response. *)
Definition outcome : Type := (database * list flash * response)%type.

Definition out_db (o : outcome) : database := fst (fst o).
Definition out_flashes (o : outcome) : list flash := snd (fst o).
Definition out_response (o : outcome) : response := snd o.

(** [try: if s: x = float(s) except ValueError: flash(...)] for a
    variable whose value before the statement is [None]. *)
Definition read_bound (float : string -> option Q) (s : string) (msg : flash)
  : option Q * list flash :=
  if PyStr.truthy s then
    match float s with
    | Some x => (Some x, [])
    | None => (None, [msg])
    end
  else (None, []).

(** [try: if s: budget = float(s) except ValueError: flash(...);
    budget = DEFAULT_BUDGET] for a variable whose value before the
    statement is [budget]. *)
Definition read_budget (float : string -> option Q) (s : string) (budget : Q)
  : Q * list flash :=
  if PyStr.truthy s then
    match float s with
    | Some b => (b, [])
    | None => (DEFAULT_BUDGET, [MSG_BUDGET])
    end
  else (budget, []).

(** The advisory flashed for a malformed [min_amount], [max_amount] or
    [budget]. *)
Definition advisory (key : string) : flash :=
  if String.eqb key "min_amount" then MSG_MIN
  else if String.eqb key "max_amount" then MSG_MAX
  else MSG_BUDGET.

Section View.

(** The builtin [float] on strings, [date.today()], and SQLite's
    CURRENT_TIMESTAMP. *)
Variable py_float : string -> option Q.
Variable today : PyDate.t.
Variable current_timestamp : string.

(** The database file after a successful insert of the given values. *)
Definition inserted (db : database) (amount : Q) (ty category date : string)
    (note : option string) : database :=
  let new_id := Z.max (sqlite_sequence db) (max_id (records db)) + 1 in
  mkdb (records db
        ++ [Row.mk new_id amount ty category date note current_timestamp])
       new_id.

(** [record_type in ("income", "expense")]. *)
Definition allowed_type (record_type : option string) : bool :=
  match record_type with
  | Some ty => String.eqb ty "income" || String.eqb ty "expense"
  | None => false
  end.

(** The [add_record] branch of [index]. *)
Definition add_record (f : form) (db : database) : outcome :=
  match py_float (PyStr.strip (form_get_default f "amount" "")) with
  | None => (db, [MSG_AMOUNT], RedirectToIndex)
  | Some amount =>
      let record_type := form_get f "type" in
      let category := PyStr.strip (form_get_default f "category" "") in
      let date_str := PyStr.or_else (form_get f "date") (PyDate.isoformat today) in
      let note := PyStr.strip (form_get_default f "note" "") in
      if negb (allowed_type record_type) then
        (db, [MSG_TYPE], RedirectToIndex)
      else if negb (PyStr.truthy category) then
        (db, [MSG_CATEGORY], RedirectToIndex)
      else
        let con := get_db_connection db in
        match insert_record current_timestamp amount record_type category
                date_str (Some note) con with
        | None => (close con, [], InternalServerError)
        | Some con =>
            let con := commit con in
            (close con, [MSG_ADDED], RedirectToIndex)
        end
  end.

(** The local variables of [index] that the [filter] branch assigns. *)
Record locals : Type := mklocals {
  l_start_date : string;
  l_end_date : string;
  l_category_filter : string;
  l_min_amount : option Q;
  l_max_amount : option Q;
  l_budget : Q
}.

(** The [filter] branch of [index]. *)
Definition read_filter (f : form) (defaults : locals) : locals * list flash :=
  let start_date := PyStr.or_else (form_get f "start_date") (l_start_date defaults) in
  let end_date := PyStr.or_else (form_get f "end_date") (l_end_date defaults) in
  let category_filter := PyStr.strip (form_get_default f "category_filter" "") in
  let min_amount_str := PyStr.strip (form_get_default f "min_amount" "") in
  let max_amount_str := PyStr.strip (form_get_default f "max_amount" "") in
  let '(min_amount, w1) := read_bound py_float min_amount_str MSG_MIN in
  let '(max_amount, w2) := read_bound py_float max_amount_str MSG_MAX in
  let budget_str := PyStr.strip (form_get_default f "budget" "") in
  let '(budget, w3) := read_budget py_float budget_str (l_budget defaults) in
  (mklocals start_date end_date category_filter min_amount max_amount budget,
   (w1 ++ w2 ++ w3)%list).

(** The tail of [index]: the statistics and the template. *)
Definition render (v : locals) (flashed : list flash) (db : database) : outcome :=
  let '(db, stats) :=
    get_stats (l_start_date v) (l_end_date v) (Some (l_category_filter v))
      (l_min_amount v) (l_max_amount v) db in
  let balance := (Stats.total_income stats - Stats.total_expense stats)%Q in
  let budget_diff := (l_budget v - Stats.total_expense stats)%Q in
  (db, flashed,
   RenderIndex
     (Ctx.mk (l_start_date v) (l_end_date v) (l_category_filter v)
        (l_min_amount v) (l_max_amount v) (l_budget v)
        (Stats.total_income stats) (Stats.total_expense stats)
        balance budget_diff
        (Stats.category_labels stats) (Stats.category_amounts stats)
        (Stats.records stats) DEFAULT_BUDGET)).

(** The view [index]. *)
Definition index (req : request) (db : database) : outcome :=
  match get_current_month_range today with
  | None => (db, [], InternalServerError)
  | Some (month_start, month_end) =>
      let defaults :=
        mklocals (PyDate.isoformat month_start) (PyDate.isoformat month_end)
          "" None None DEFAULT_BUDGET in
      match method req with
      | POST =>
          let action := form_get (req_form req) "action" in
          match action with
          | Some a =>
              if String.eqb a "add_record" then add_record (req_form req) db
              else if String.eqb a "filter" then
                let '(v, flashed) := read_filter (req_form req) defaults in
                render v flashed db
              else render defaults [] db
          | None => render defaults [] db
          end
      | GET => render defaults [] db
      end
  end.

End View.

(* ================================================================= *)
(** ** A reader of decimal literals *)

(** [decimal_float] reads the plain decimal literals ([300], [-12.5],
    [+.5], [7.]) as [float] does, exactly, and refuses every other
    string.  It instantiates the parameter [py_float] when the view is
    run on a concrete request; [float] itself also reads exponents,
    digit separators and the non-finite names. *)
Definition digit_value (c : ascii) : option Z :=
  let n := N_of_ascii c in
  if ((48 <=? n) && (n <=? 57))%N then Some (Z.of_N n - 48) else None.

Fixpoint scan_decimal (s : string) (num : Z) (scale : positive)
    (seen_dot : bool) (ndigits : nat) : option Q :=
  match s with
  | EmptyString =>
      match ndigits with
      | O => None
      | S _ => Some (num # scale)
      end
  | String c r =>
      match digit_value c with
      | Some d =>
          scan_decimal r (num * 10 + d)
            (if seen_dot then scale * 10 else scale)%positive
            seen_dot (S ndigits)
      | None =>
          if Ascii.eqb c "." && negb seen_dot
          then scan_decimal r num scale true ndigits
          else None
      end
  end.

Definition decimal_float (s : string) : option Q :=
  match s with
  | String "-" r => option_map Qopp (scan_decimal r 0 1 false 0)
  | String "+" r => scan_decimal r 0 1 false 0
  | _ => scan_decimal s 0 1 false 0
  end.

(* ================================================================= *)
(** ** The filter as the specification words it *)

(** A row satisfies the filter when its date lies in the inclusive
    range, its category equals the trimmed category filter unless that
    is empty, and its amount lies within the inclusive bounds that are
    present. *)
Definition satisfies_filter (start_date end_date : string)
    (category : option string) (min_amount max_amount : option Q)
    (r : Row.t) : bool :=
  (String.leb start_date (Row.date r) && String.leb (Row.date r) end_date)
  && match category with
     | Some c =>
         if String.eqb (PyStr.strip c) "" then true
         else String.eqb (Row.category r) (PyStr.strip c)
     | None => true
     end
  && match min_amount with
     | Some m => Qle_bool m (Row.amount r)
     | None => true
     end
  && match max_amount with
     | Some m => Qle_bool (Row.amount r) m
     | None => true
     end.

(** The rows of kind [ty] that satisfy the filter. *)
Definition matching (ty : string) (start_date end_date : string)
    (category : option string) (min_amount max_amount : option Q)
    (db : database) : list Row.t :=
  filter (fun r =>
            type_is ty r
            && satisfies_filter start_date end_date category
                 min_amount max_amount r)
         (records db).

(** The total of one category among [rows]. *)
Definition category_total (rows : list Row.t) (c : string) : Q :=
  py_sum (map Row.amount
            (filter (fun r => String.eqb (Row.category r) c) rows)).

(** [ORDER BY date DESC, id DESC] on the fetched details: [a] may come
    before [b]. *)
Definition detail_before (a b : Detail.t) : Prop :=
  String.ltb (Detail.date b) (Detail.date a) = true
  \/ (Detail.date a = Detail.date b /\ Detail.id b <= Detail.id a).


(* ================================================================= *)
(** ** Sample data *)

(** Three records dated 2024-01-01, 2024-01-03 and 2024-01-03, in the
    order of their insertion. *)
Definition ledger_three_dates : database :=
  mkdb [ Row.mk 1 20%Q "expense" "food" "2024-01-01" (Some "") "2024-01-01 09:00:00";
         Row.mk 2 35%Q "income" "salary" "2024-01-03" (Some "") "2024-01-03 09:00:00";
         Row.mk 3 15%Q "expense" "food" "2024-01-03" (Some "") "2024-01-03 10:00:00" ]
       3.

(** An expense of 10 in "food" and one of 50 in "rent". *)
Definition ledger_food_rent : database :=
  mkdb [ Row.mk 1 10%Q "expense" "food" "2024-01-05" (Some "") "2024-01-05 09:00:00";
         Row.mk 2 50%Q "expense" "rent" "2024-01-06" (Some "") "2024-01-06 09:00:00" ]
       2.

(** One expense of 500. *)
Definition ledger_rent_500 : database :=
  mkdb [ Row.mk 1 500%Q "expense" "rent" "2024-01-02" (Some "") "2024-01-02 09:00:00" ]
       1.

(** The clock of the sample requests. *)
Definition sample_today : PyDate.t := PyDate.mk 2024 1 15.
Definition sample_now : string := "2024-01-15 12:00:00".

(** A filter request whose [min_amount] is not a number. *)
Definition filter_min_abc : form :=
  [ ("action", "filter"); ("start_date", "2024-01-01");
    ("end_date", "2024-01-31"); ("min_amount", "abc") ].

(** A filter request with a budget of 300. *)
Definition filter_budget_300 : form :=
  [ ("action", "filter"); ("start_date", "2024-01-01");
    ("end_date", "2024-01-31"); ("budget", "300") ].

(** An insert request of kind "transfer". *)
Definition add_transfer : form :=
  [ ("action", "add_record"); ("amount", "12.5"); ("type", "transfer");
    ("category", "food"); ("date", "2024-01-20") ].

(** An insert request with a negative amount. *)
Definition add_negative : form :=
  [ ("action", "add_record"); ("amount", "-5"); ("type", "expense");
    ("category", " food "); ("date", "2024-01-20"); ("note", "refund") ].

(** An insert request whose date is no calendar date. *)
Definition add_odd_date : form :=
  [ ("action", "add_record"); ("amount", "40"); ("type", "income");
    ("category", "gift"); ("date", "not-a-date") ].

(** The sample view. *)
Definition sample_view : request -> database -> outcome :=
  index decimal_float sample_today sample_now.

(* ================================================================= *)
(** ** Calendar dates and the shape of the store *)

(** The order of [datetime.date] values. *)
Definition date_compare (a b : PyDate.t) : comparison :=
  match PyDate.year a ?= PyDate.year b with
  | Eq =>
      match PyDate.month a ?= PyDate.month b with
      | Eq => PyDate.day a ?= PyDate.day b
      | c => c
      end
  | c => c
  end.

(** A calendar date: a value that [date(y, m, d)] builds. *)
Definition calendar_date (x : PyDate.t) : Prop :=
  PyDate.date (PyDate.year x) (PyDate.month x) (PyDate.day x) = Some x.

(** What the schema and the checks of [index] ask of a row: a positive
    id, one of the two kinds, a category that is not empty and is
    trimmed. *)
Definition row_ok (r : Row.t) : Prop :=
  0 < Row.id r
  /\ (Row.type r = "income" \/ Row.type r = "expense")
  /\ Row.category r <> ""
  /\ PyStr.strip (Row.category r) = Row.category r.

(** A store whose ids are pairwise distinct and whose rows are all
    [row_ok]. *)
Definition well_formed (db : database) : Prop :=
  NoDup (map Row.id (records db)) /\ Forall row_ok (records db).

(** The template arguments that [index] computes from its local
    variables and the store. *)
Definition page (v : locals) (db : database) : Ctx.t :=
  let stats :=
    snd (get_stats (l_start_date v) (l_end_date v)
           (Some (l_category_filter v)) (l_min_amount v) (l_max_amount v) db) in
  Ctx.mk (l_start_date v) (l_end_date v) (l_category_filter v)
    (l_min_amount v) (l_max_amount v) (l_budget v)
    (Stats.total_income stats) (Stats.total_expense stats)
    (Stats.total_income stats - Stats.total_expense stats)%Q
    (l_budget v - Stats.total_expense stats)%Q
    (Stats.category_labels stats) (Stats.category_amounts stats)
    (Stats.records stats) DEFAULT_BUDGET.

(** The amount [x] is on the allowed side of the bound [m] that the
    field [key] sets. *)
Definition within_bound (key : string) (m x : Q) : Prop :=
  if String.eqb key "min_amount" then (m <= x)%Q else (x <= m)%Q.

(** A request that submits the form [f] with POST. *)
Definition post (f : form) : request := mkreq POST f.

(** A request without a form. *)
Definition get_page : request := mkreq GET [].

(** A well-formed insert request and a filter by category. *)
Definition add_lunch : form :=
  [ ("action", "add_record"); ("amount", "12.5"); ("type", "expense");
    ("category", "  food "); ("note", " lunch ") ].

Definition filter_food : form :=
  [ ("action", "filter"); ("start_date", "2024-01-01");
    ("end_date", "2024-01-31"); ("category_filter", " food  ") ].

Definition filter_min_20 : form :=
  [ ("action", "filter"); ("start_date", "2024-01-01");
    ("end_date", "2024-01-31"); ("min_amount", " 20 ") ].

(** A POST whose action the view does not know. *)
Definition post_export : form := [ ("action", "export") ].

(* ================================================================= *)
(** ** The arithmetic of doubles *)

(** A finite double is a rational, and comparing doubles is comparing
    rationals; adding them is not adding rationals: the sum is rounded
    to the nearest double, ties to the even significand.  The
    definitions of this part repeat the aggregates with the addition as
    a parameter, so that they can be read with the exact sum [Qplus]
    and with the rounded sum [double_add]. *)

(** The integer nearest to [n / d], ties to even, for [0 <= n] and
    [0 < d]. *)
Definition round_half_even (n d : Z) : Z :=
  let q := n / d in
  match 2 * (n mod d) ?= d with
  | Lt => q
  | Gt => q + 1
  | Eq => if Z.even q then q else q + 1
  end.

(** The exponent [e] with [2 ^ e <= a / d < 2 ^ (e + 1)], for [0 < a]
    and [0 < d]. *)
Definition floor_log2 (a d : Z) : Z :=
  let c := Z.log2 a - Z.log2 d in
  if (if 0 <=? c then d * 2 ^ c <=? a else d <=? a * 2 ^ (- c))
  then c else c - 1.

(** The double nearest to a rational: 53 significant bits, the unit
    in the last place no smaller than [2 ^ -1074].  Meant below
    [2 ^ 1024], where the program's sum overflows to an infinity. *)
Definition round_double (x : Q) : Q :=
  let n := Qnum (Qred x) in
  let d := Zpos (Qden (Qred x)) in
  if n =? 0 then 0%Q
  else
    let a := Z.abs n in
    let u := Z.max (floor_log2 a d - 52) (-1074) in
    if 0 <=? u
    then inject_Z (Z.sgn n * round_half_even a (d * 2 ^ u) * 2 ^ u)
    else Qred (Qmake (Z.sgn n * round_half_even (a * 2 ^ (- u)) d)
                 (Z.to_pos (2 ^ (- u)))).

(** The sum of two doubles. *)
Definition double_add (x y : Q) : Q := round_double (x + y).

Section Arithmetic.

(** The addition of the engine and of Python's [+]. *)
Variable add : Q -> Q -> Q.

(** [SUM(amount)]: NULL over no row. *)
Definition sql_sum_with (xs : list Q) : option Q :=
  match xs with
  | [] => None
  | x :: xs' => Some (fold_left add xs' x)
  end.

(** Python's [sum(xs)]. *)
Definition py_sum_with (xs : list Q) : Q := fold_left add xs 0%Q.

(** [SELECT COALESCE(SUM(amount), 0) FROM records WHERE type = ty AND w]. *)
Definition select_total_with (ty : string) (w : list condition)
    (con : connection) : connection * Q :=
  let rows :=
    filter (fun r => type_is ty r && where_clause w r) (records (in_txn con)) in
  (con, coalesce (sql_sum_with (map Row.amount rows)) 0%Q).

(** The groups of [GROUP BY category], one per distinct category. *)
Definition group_by_category_with (rows : list Row.t) : list (string * Q) :=
  map (fun c =>
         (c, coalesce
               (sql_sum_with
                  (map Row.amount
                     (filter (fun r => String.eqb (Row.category r) c) rows)))
               0%Q))
      (nodup string_dec (map Row.category rows)).

(** [SELECT category, COALESCE(SUM(amount), 0) AS total FROM records
     WHERE type = ty AND w GROUP BY category ORDER BY total DESC]. *)
Definition select_by_category_with (ty : string) (w : list condition)
    (con : connection) : connection * list (string * Q) :=
  let rows :=
    filter (fun r => type_is ty r && where_clause w r) (records (in_txn con)) in
  (con, order_by total_desc (group_by_category_with rows)).

(** [get_stats], its sums taken with [add]. *)
Definition get_stats_with (start_date end_date : string)
    (category : option string) (min_amount max_amount : option Q)
    (db : database) : database * Stats.t :=
  let con := get_db_connection db in
  let conditions :=
    build_conditions start_date end_date category min_amount max_amount in
  let '(con, total_income) := select_total_with "income" conditions con in
  let total_income := or_zero total_income in
  let '(con, total_expense) := select_total_with "expense" conditions con in
  let total_expense := or_zero total_expense in
  let '(con, rows) := select_by_category_with "expense" conditions con in
  let category_labels := map fst rows in
  let category_amounts := map snd rows in
  let '(con, records) := select_details conditions con in
  let db := close con in
  (db, Stats.mk total_income total_expense category_labels category_amounts
         records).

End Arithmetic.

(** [l] is part of the collection [A]: its elements can be taken out
    of [A], each as often as it occurs there. *)
Definition part_of (l A : list Q) : Prop :=
  exists rest, Permutation (l ++ rest) A.

(** No addition among the amounts [A] rounds: the sums of any two
    disjoint parts of [A] add up exactly. *)
Definition no_rounding (add : Q -> Q -> Q) (A : list Q) : Prop :=
  forall l1 l2,
    part_of (l1 ++ l2) A ->
    (add (py_sum l1) (py_sum l2) == py_sum l1 + py_sum l2)%Q.

(** The records of kind [ty] among those returned, their amounts in the
    order listed. *)
Definition listed_amounts (ty : string) (stats : Stats.t) : list Q :=
  map Detail.amount
    (filter (fun d => String.eqb (Detail.type d) ty) (Stats.records stats)).

(* ================================================================= *)
(** ** The whole range of [float()] *)

(** What [float(s)] returns: a finite double, an infinity or NaN. *)
Inductive py_number : Type :=
| Finite (x : Q)
| Infinite (negative : bool)
| NaN.

Section WholeFloat.

(** The builtin [float] with all its values, [date.today()] and
    CURRENT_TIMESTAMP. *)
Variable float : string -> option py_number.
Variable today : PyDate.t.
Variable current_timestamp : string.

(** The [add_record] branch of [index] over all the values of
    [float].  sqlite3 binds NaN as NULL, which the constraint
    [amount REAL NOT NULL] refuses with an [IntegrityError] that the
    view does not catch.  An infinity is stored as it is; the rows of
    this model hold finite amounts, and the result is [None] there. *)
Definition add_record_py (f : form) (db : database) : option outcome :=
  match float (PyStr.strip (form_get_default f "amount" "")) with
  | None => Some (db, [MSG_AMOUNT], RedirectToIndex)
  | Some amount =>
      let record_type := form_get f "type" in
      let category := PyStr.strip (form_get_default f "category" "") in
      let date_str := PyStr.or_else (form_get f "date") (PyDate.isoformat today) in
      let note := PyStr.strip (form_get_default f "note" "") in
      if negb (allowed_type record_type) then
        Some (db, [MSG_TYPE], RedirectToIndex)
      else if negb (PyStr.truthy category) then
        Some (db, [MSG_CATEGORY], RedirectToIndex)
      else
        let con := get_db_connection db in
        match amount with
        | NaN => Some (close con, [], InternalServerError)
        | Infinite _ => None
        | Finite a =>
            match insert_record current_timestamp a record_type category
                    date_str (Some note) con with
            | None => Some (close con, [], InternalServerError)
            | Some con =>
                let con := commit con in
                Some (close con, [MSG_ADDED], RedirectToIndex)
            end
        end
  end.

End WholeFloat.

(** [s.lower()] on ASCII letters. *)
Definition ascii_lower (c : ascii) : ascii :=
  let n := N_of_ascii c in
  if ((65 <=? n) && (n <=? 90))%N then ascii_of_N (n + 32) else c.

Fixpoint lower (s : string) : string :=
  match s with
  | EmptyString => EmptyString
  | String c r => String (ascii_lower c) (lower r)
  end.

(** [float_literal] reads what [decimal_float] reads and the names of
    the values that are not finite, in any case and with a sign:
    [nan], [inf], [infinity]. *)
Definition float_literal (s : string) : option py_number :=
  let '(negative, body) :=
    match s with
    | String "-" r => (true, r)
    | String "+" r => (false, r)
    | _ => (false, s)
    end in
  if String.eqb (lower body) "nan" then Some NaN
  else if String.eqb (lower body) "inf" || String.eqb (lower body) "infinity"
       then Some (Infinite negative)
       else option_map Finite (decimal_float s).

(** Three expenses, two of which cancel: 1e16 and -1e16, and 1.0 in
    the category of the first.  The dates list the third first. *)
Definition ledger_cancelling : database :=
  mkdb [ Row.mk 1 10000000000000000%Q "expense" "stock" "2024-01-02"
           (Some "") "2024-01-02 09:00:00";
         Row.mk 2 (-10000000000000000)%Q "expense" "fees" "2024-01-01"
           (Some "") "2024-01-02 09:05:00";
         Row.mk 3 1%Q "expense" "stock" "2024-01-03"
           (Some "") "2024-01-03 09:00:00" ]
       3.

(** An insert request whose amount is the string "nan". *)
Definition add_nan : form :=
  [ ("action", "add_record"); ("amount", "nan"); ("type", "expense");
    ("category", "food"); ("date", "2024-01-20") ].

(* ================================================================= *)
(** ** Sums of rationals *)

Lemma fold_left_Qplus (l : list Q) (a : Q) :
  (fold_left Qplus l a == a + py_sum l)%Q.
Proof.
  unfold py_sum. revert a.
  induction l as [| x l IH]; intros a; simpl.
  - ring.
  - rewrite (IH (a + x)%Q), (IH (0 + x)%Q). ring.
Qed.

Lemma py_sum_cons (x : Q) (l : list Q) :
  (py_sum (x :: l) == x + py_sum l)%Q.
Proof.
  unfold py_sum at 1. simpl. rewrite fold_left_Qplus. ring.
Qed.

Lemma py_sum_nil : py_sum [] = 0%Q.
Proof. reflexivity. Qed.

Lemma py_sum_Permutation (l1 l2 : list Q) :
  Permutation l1 l2 -> (py_sum l1 == py_sum l2)%Q.
Proof.
  induction 1 as [| x l1 l2 _ IH | x y l | l1 l2 l3 _ IH1 _ IH2].
  - reflexivity.
  - rewrite !py_sum_cons, IH. reflexivity.
  - rewrite !py_sum_cons. ring.
  - rewrite IH1. exact IH2.
Qed.

Lemma coalesce_sql_sum (l : list Q) :
  (coalesce (sql_sum l) 0 == py_sum l)%Q.
Proof.
  destruct l as [| x l]; simpl.
  - reflexivity.
  - rewrite fold_left_Qplus, py_sum_cons. reflexivity.
Qed.

Lemma or_zero_eq (x : Q) : (or_zero x == x)%Q.
Proof.
  unfold or_zero. destruct (Qeq_bool x 0) eqn:E.
  - apply Qeq_bool_iff in E. symmetry. exact E.
  - reflexivity.
Qed.

(** The sum of [f] over a duplicate-free list that holds [x], when [f]
    vanishes away from [x]. *)
Lemma py_sum_single (cs : list string) (x : string) (a : Q) :
  NoDup cs -> In x cs ->
  (py_sum (map (fun c => if String.eqb x c then a else 0) cs) == a)%Q.
Proof.
  intros Hnd. induction Hnd as [| c cs Hnotin Hnd IH]; intros Hin.
  - destruct Hin.
  - simpl. rewrite py_sum_cons.
    destruct (String.eqb_spec x c) as [-> | Hne].
    + assert (Hz : (py_sum (map (fun c0 => if String.eqb c c0 then a else 0) cs) == 0)%Q).
      { clear IH Hnd Hin. induction cs as [| d cs IHcs]; simpl.
        - reflexivity.
        - rewrite py_sum_cons.
          destruct (String.eqb_spec c d) as [-> | _].
          + exfalso. apply Hnotin. left. reflexivity.
          + assert (Hrest : ~ In c cs) by (intros H; apply Hnotin; right; exact H).
            rewrite (IHcs Hrest). ring. }
      rewrite Hz. ring.
    + destruct Hin as [Heq | Hin]; [congruence |].
      rewrite (IH Hin). ring.
Qed.

Lemma py_sum_map_plus {A : Type} (f g : A -> Q) (l : list A) :
  (py_sum (map (fun c => f c + g c) l) == py_sum (map f l) + py_sum (map g l))%Q.
Proof.
  induction l as [| c l IH]; simpl.
  - rewrite py_sum_nil. ring.
  - rewrite !py_sum_cons, IH. ring.
Qed.

Lemma py_sum_map_ext {A : Type} (f g : A -> Q) (l : list A) :
  (forall c, In c l -> (f c == g c)%Q) ->
  (py_sum (map f l) == py_sum (map g l))%Q.
Proof.
  induction l as [| c l IH]; intros H; simpl.
  - reflexivity.
  - rewrite !py_sum_cons, (H c (or_introl eq_refl)), IH.
    + reflexivity.
    + intros d Hd. apply H. right. exact Hd.
Qed.

(* ================================================================= *)
(** ** The order on strings and the two ORDER BY clauses *)

Lemma ascii_compare_Lt_trans (a b c : ascii) :
  Ascii.compare a b = Lt -> Ascii.compare b c = Lt -> Ascii.compare a c = Lt.
Proof.
  unfold Ascii.compare. rewrite !N.compare_lt_iff. apply N.lt_trans.
Qed.

Lemma string_compare_Lt_trans :
  forall a b c : string,
    String.compare a b = Lt -> String.compare b c = Lt ->
    String.compare a c = Lt.
Proof.
  induction a as [| x a IH]; intros [| y b] [| z c]; simpl;
    try discriminate; auto.
  destruct (Ascii.compare x y) eqn:Exy; try discriminate.
  - apply Ascii.compare_eq_iff in Exy. subst y.
    destruct (Ascii.compare x z); try discriminate; auto. apply IH.
  - intros _. destruct (Ascii.compare y z) eqn:Eyz; try discriminate.
    + apply Ascii.compare_eq_iff in Eyz. subst z. rewrite Exy. auto.
    + rewrite (ascii_compare_Lt_trans _ _ _ Exy Eyz). auto.
Qed.

Lemma string_compare_refl (a : string) : String.compare a a = Eq.
Proof.
  induction a as [| x a IH]; simpl; auto.
  unfold Ascii.compare. rewrite N.compare_refl. exact IH.
Qed.

Lemma string_ltb_Lt (a b : string) :
  String.ltb a b = true <-> String.compare a b = Lt.
Proof.
  unfold String.ltb. destruct (String.compare a b); split; congruence.
Qed.

Lemma string_ltb_trans (a b c : string) :
  String.ltb a b = true -> String.ltb b c = true -> String.ltb a c = true.
Proof.
  rewrite !string_ltb_Lt. apply string_compare_Lt_trans.
Qed.

Lemma insert_by_Permutation {A : Type} (leb : A -> A -> bool) (x : A)
    (l : list A) :
  Permutation (insert_by leb x l) (x :: l).
Proof.
  induction l as [| y l IH]; simpl.
  - apply Permutation_refl.
  - destruct (leb x y).
    + apply Permutation_refl.
    + apply perm_trans with (y :: x :: l); [| apply perm_swap].
      apply perm_skip. exact IH.
Qed.

Lemma order_by_Permutation {A : Type} (leb : A -> A -> bool) (l : list A) :
  Permutation (order_by leb l) l.
Proof.
  induction l as [| x l IH]; simpl.
  - apply perm_nil.
  - apply perm_trans with (x :: order_by leb l).
    + apply insert_by_Permutation.
    + apply perm_skip. exact IH.
Qed.

Section OrderBy.

Context {A : Type} (leb : A -> A -> bool).
Hypothesis leb_total : forall a b, leb a b = true \/ leb b a = true.
Hypothesis leb_trans :
  forall a b c, leb a b = true -> leb b c = true -> leb a c = true.

Lemma insert_by_sorted (x : A) (l : list A) :
  StronglySorted (fun a b => leb a b = true) l ->
  StronglySorted (fun a b => leb a b = true) (insert_by leb x l).
Proof.
  induction 1 as [| y l Hs IH Hall]; simpl.
  - constructor; constructor.
  - destruct (leb x y) eqn:E.
    + constructor; [constructor; assumption |].
      constructor; [exact E |].
      rewrite Forall_forall in *. intros z Hz. eauto.
    + constructor; [exact IH |].
      apply (Permutation_Forall (Permutation_sym (insert_by_Permutation leb x l))).
      constructor; [| exact Hall].
      destruct (leb_total x y) as [H | H]; [congruence | exact H].
Qed.

Lemma order_by_sorted (l : list A) :
  StronglySorted (fun a b => leb a b = true) (order_by leb l).
Proof.
  induction l as [| x l IH]; simpl.
  - constructor.
  - apply insert_by_sorted. exact IH.
Qed.

End OrderBy.

Lemma date_desc_id_desc_total (a b : Row.t) :
  date_desc_id_desc a b = true \/ date_desc_id_desc b a = true.
Proof.
  unfold date_desc_id_desc.
  rewrite (String.compare_antisym (Row.date b) (Row.date a)).
  destruct (String.compare (Row.date a) (Row.date b)); simpl; auto.
  destruct (Z.leb_spec (Row.id b) (Row.id a)); auto.
  right. apply Z.leb_le. lia.
Qed.

(** [date_desc_id_desc] is the order of [ORDER BY date DESC, id DESC]. *)
Lemma detail_leb_iff (a b : Row.t) :
  date_desc_id_desc a b = true <->
  detail_before (Detail.of_row a) (Detail.of_row b).
Proof.
  unfold date_desc_id_desc, detail_before. simpl.
  rewrite string_ltb_Lt, (String.compare_antisym (Row.date b) (Row.date a)).
  destruct (String.compare (Row.date a) (Row.date b)) eqn:E; simpl.
  - apply String.compare_eq_iff in E. rewrite Z.leb_le.
    split; [intros H; right; auto | intros [H | [_ H]]; [discriminate | exact H]].
  - split; [discriminate | intros [H | [H _]]; [discriminate |]].
    rewrite H, string_compare_refl in E. discriminate.
  - split; auto.
Qed.

Lemma detail_before_trans (a b c : Detail.t) :
  detail_before a b -> detail_before b c -> detail_before a c.
Proof.
  unfold detail_before.
  intros [H1 | [E1 H1]] [H2 | [E2 H2]].
  - left. exact (string_ltb_trans _ _ _ H2 H1).
  - left. rewrite <- E2. exact H1.
  - left. rewrite E1. exact H2.
  - right. split; [congruence | lia].
Qed.

Lemma StronglySorted_map {A B : Type} (R : A -> A -> Prop)
    (R' : B -> B -> Prop) (f : A -> B) (l : list A) :
  (forall a b, R a b -> R' (f a) (f b)) ->
  StronglySorted R l -> StronglySorted R' (map f l).
Proof.
  intros Hf. induction 1 as [| a l Hs IH Hall]; simpl; constructor; auto.
  rewrite Forall_forall in *. intros y Hy.
  apply in_map_iff in Hy. destruct Hy as [b [<- Hb]]. auto.
Qed.

Lemma detail_sort_sorted (l : list Row.t) :
  StronglySorted detail_before
    (map Detail.of_row (order_by date_desc_id_desc l)).
Proof.
  apply StronglySorted_map
    with (R := fun a b => date_desc_id_desc a b = true).
  - intros a b H. apply detail_leb_iff. exact H.
  - apply order_by_sorted.
    + apply date_desc_id_desc_total.
    + intros a b c Hab Hbc. apply detail_leb_iff.
      apply detail_leb_iff in Hab. apply detail_leb_iff in Hbc.
      exact (detail_before_trans _ _ _ Hab Hbc).
Qed.


(* ================================================================= *)
(** ** Grouping *)

Lemma filter_filter {A : Type} (p q : A -> bool) (l : list A) :
  filter p (filter q l) = filter (fun x => p x && q x) l.
Proof.
  induction l as [| x l IH]; simpl; auto.
  destruct (q x); simpl; rewrite ?andb_true_r, ?andb_false_r;
    [destruct (p x) |]; rewrite IH; reflexivity.
Qed.

Lemma filter_Permutation {A : Type} (p : A -> bool) (l1 l2 : list A) :
  Permutation l1 l2 -> Permutation (filter p l1) (filter p l2).
Proof.
  induction 1 as [| x l1 l2 _ IH | x y l | l1 l2 l3 _ IH1 _ IH2]; simpl.
  - constructor.
  - destruct (p x); auto.
  - destruct (p x), (p y); auto. constructor.
  - eapply Permutation_trans; eauto.
Qed.

Lemma sum_by_category (cs : list string) (rows : list Row.t) :
  NoDup cs ->
  (forall r, In r rows -> In (Row.category r) cs) ->
  (py_sum (map (category_total rows) cs) == py_sum (map Row.amount rows))%Q.
Proof.
  intros Hnd. induction rows as [| r rows IH]; intros Hin.
  - simpl. induction cs as [| c cs IHcs]; simpl.
    + reflexivity.
    + rewrite py_sum_cons, IHcs.
      * unfold category_total. simpl. rewrite py_sum_nil. ring.
      * inversion Hnd. assumption.
      * intros r [].
  - rewrite (py_sum_map_ext (category_total (r :: rows))
               (fun c => (if String.eqb (Row.category r) c
                          then Row.amount r else 0)
                         + category_total rows c)%Q).
    + rewrite py_sum_map_plus, py_sum_single, IH; simpl.
      * rewrite py_sum_cons. reflexivity.
      * intros r' Hr'. apply Hin. right. exact Hr'.
      * exact Hnd.
      * apply Hin. left. reflexivity.
    + intros c _. unfold category_total. simpl.
      destruct (String.eqb (Row.category r) c); simpl.
      * rewrite py_sum_cons. reflexivity.
      * ring.
Qed.

Lemma group_by_category_labels (rows : list Row.t) :
  map fst (group_by_category rows) = nodup string_dec (map Row.category rows).
Proof.
  unfold group_by_category. rewrite map_map. simpl. apply map_id.
Qed.


Lemma group_by_category_sum (rows : list Row.t) :
  (py_sum (map snd (group_by_category rows)) == py_sum (map Row.amount rows))%Q.
Proof.
  unfold group_by_category. rewrite map_map. simpl.
  rewrite (py_sum_map_ext _ (category_total rows)).
  - apply sum_by_category.
    + apply NoDup_nodup.
    + intros r Hr. apply nodup_In. apply in_map. exact Hr.
  - intros c _. apply coalesce_sql_sum.
Qed.

(* ================================================================= *)
(** ** [get_stats] *)

Lemma truthy_iff (s : string) : PyStr.truthy s = negb (String.eqb s "").
Proof. destruct s; reflexivity. Qed.

Lemma strip_empty : PyStr.strip "" = "".
Proof. reflexivity. Qed.

(** The WHERE clause that [get_stats] composes is the filter of the
    specification. *)
Lemma where_clause_spec (s e : string) (c : option string)
    (mn mx : option Q) (r : Row.t) :
  where_clause (build_conditions s e c mn mx) r
  = satisfies_filter s e c mn mx r.
Proof.
  unfold build_conditions, satisfies_filter, where_clause.
  assert (Hc : forall c0,
             PyStr.truthy c0 && PyStr.truthy (PyStr.strip c0)
             = negb (String.eqb (PyStr.strip c0) "")).
  { intros [| a c0]; [reflexivity |]. simpl. apply truthy_iff. }
  destruct c as [c |]; [rewrite Hc; destruct (String.eqb (PyStr.strip c) "") |];
    destruct mn as [mn |]; destruct mx as [mx |]; simpl;
    rewrite ?forallb_app; simpl;
    rewrite ?andb_true_r; rewrite <- ?andb_assoc; reflexivity.
Qed.

Lemma filter_ext_eq {A : Type} (p q : A -> bool) (l : list A) :
  (forall x, p x = q x) -> filter p l = filter q l.
Proof.
  intros H. induction l as [| x l IH]; simpl; auto.
  rewrite H, IH. reflexivity.
Qed.

(** [get_stats] unfolded: every statement is read against the filter of
    the specification on the table of the file. *)
Lemma get_stats_unfold (s e : string) (c : option string)
    (mn mx : option Q) (db : database) :
  get_stats s e c mn mx db =
  (db,
   Stats.mk
     (or_zero (coalesce (sql_sum (map Row.amount (matching "income" s e c mn mx db))) 0))
     (or_zero (coalesce (sql_sum (map Row.amount (matching "expense" s e c mn mx db))) 0))
     (map fst (order_by total_desc (group_by_category (matching "expense" s e c mn mx db))))
     (map snd (order_by total_desc (group_by_category (matching "expense" s e c mn mx db))))
     (map Detail.of_row
        (order_by date_desc_id_desc (filter (satisfies_filter s e c mn mx) (records db))))).
Proof.
  unfold get_stats, select_total, select_by_category, select_details,
    get_db_connection, close, matching. simpl.
  rewrite !(filter_ext_eq
              (fun r => type_is _ r && where_clause (build_conditions s e c mn mx) r)
              (fun r => type_is _ r && satisfies_filter s e c mn mx r))
    by (intros; rewrite where_clause_spec; reflexivity).
  rewrite (filter_ext_eq (where_clause (build_conditions s e c mn mx))
             (satisfies_filter s e c mn mx))
    by (intros; apply where_clause_spec).
  reflexivity.
Qed.

(** ** The properties of [get_stats] *)

Lemma filter_map_of_row (ty : string) (l : list Row.t) :
  filter (fun d => String.eqb (Detail.type d) ty) (map Detail.of_row l)
  = map Detail.of_row (filter (type_is ty) l).
Proof.
  induction l as [| r l IH]; simpl; auto.
  unfold type_is at 1. destruct (String.eqb (Row.type r) ty); simpl;
    rewrite IH; reflexivity.
Qed.

Lemma details_of_kind_sum (ty : string) (s e : string) (c : option string)
    (mn mx : option Q) (db : database) :
  (py_sum (map Detail.amount
             (filter (fun d => String.eqb (Detail.type d) ty)
                (map Detail.of_row
                   (order_by date_desc_id_desc
                      (filter (satisfies_filter s e c mn mx) (records db))))))
   == py_sum (map Row.amount (matching ty s e c mn mx db)))%Q.
Proof.
  rewrite filter_map_of_row, map_map. simpl.
  apply py_sum_Permutation, Permutation_map.
  unfold matching. rewrite <- filter_filter.
  apply filter_Permutation, order_by_Permutation.
Qed.

(** C3. For every store and every filter, the returned [records] are
    exactly the rows satisfying the filter, most recent date first and,
    within one date, highest id first; the records dated 2024-01-01
    (id 1), 2024-01-03 (id 2) and 2024-01-03 (id 3) come back as
    ids 3, 2, 1. *)
Theorem records_exact_and_ordered (start_date end_date : string)
    (category : option string) (min_amount max_amount : option Q)
    (db : database) :
  let recs := Stats.records (snd (get_stats start_date end_date category
                                    min_amount max_amount db)) in
  Permutation recs
    (map Detail.of_row
       (filter (satisfies_filter start_date end_date category
                  min_amount max_amount)
          (records db)))
  /\ StronglySorted detail_before recs
  /\ map Detail.id
       (Stats.records
          (snd (get_stats "2024-01-01" "2024-01-31" None None None
                  ledger_three_dates)))
     = [3; 2; 1].
Proof.
  rewrite get_stats_unfold. simpl. split; [| split].
  - apply Permutation_map, order_by_Permutation.
  - apply detail_sort_sorted.
  - reflexivity.
Qed.


Lemma matching_In (ty s e : string) (c : option string) (mn mx : option Q)
    (db : database) (r : Row.t) :
  In r (matching ty s e c mn mx db) <->
  In r (records db) /\ Row.type r = ty
  /\ satisfies_filter s e c mn mx r = true.
Proof.
  unfold matching. rewrite filter_In, andb_true_iff.
  unfold type_is. rewrite String.eqb_eq. tauto.
Qed.


(** C9. [get_stats] only reads: whatever the store and the filter, the
    database file after the call is the one before it. *)
Theorem get_stats_read_only (start_date end_date : string)
    (category : option string) (min_amount max_amount : option Q)
    (db : database) :
  fst (get_stats start_date end_date category min_amount max_amount db) = db.
Proof.
  rewrite get_stats_unfold. reflexivity.
Qed.

(* ================================================================= *)
(** ** The view *)

Lemma form_get_without_same (key : string) (f : form) :
  form_get (form_without key f) key = None.
Proof.
  induction f as [| [k v] f IH]; simpl; auto.
  destruct (String.eqb k key) eqn:E; simpl; auto.
  rewrite E. exact IH.
Qed.

Lemma form_get_without_other (key k : string) (f : form) :
  k <> key -> form_get (form_without key f) k = form_get f k.
Proof.
  intros Hne. induction f as [| [k' v] f IH]; simpl; auto.
  destruct (String.eqb_spec k' key) as [-> | Hk]; simpl.
  - destruct (String.eqb_spec key k) as [-> | _]; [congruence | exact IH].
  - rewrite IH. reflexivity.
Qed.

Lemma read_bound_failure (float : string -> option Q) (s : string)
    (msg : flash) :
  float s = None ->
  read_bound float s msg = (None, if PyStr.truthy s then [msg] else []).
Proof.
  intros H. unfold read_bound. rewrite H. destruct (PyStr.truthy s); reflexivity.
Qed.

Lemma read_bound_warning (float : string -> option Q) (s : string)
    (msg m : flash) :
  flash_category msg = "warning" ->
  In m (snd (read_bound float s msg)) -> flash_category m = "warning".
Proof.
  intros Hmsg. unfold read_bound.
  destruct (PyStr.truthy s); [destruct (float s) |]; simpl;
    intros H; try contradiction.
  destruct H as [<- | []]. exact Hmsg.
Qed.

Section ViewProperties.

Variable py_float : string -> option Q.
Variable today : PyDate.t.
Variable current_timestamp : string.

Local Abbreviation view := (index py_float today current_timestamp).

Lemma index_add_record (f : form) (db : database)
    (month_start month_end : PyDate.t) :
  get_current_month_range today = Some (month_start, month_end) ->
  form_get f "action" = Some "add_record" ->
  view (mkreq POST f) db = add_record py_float today current_timestamp f db.
Proof.
  intros Hclock Haction. unfold view, index. rewrite Hclock. simpl.
  rewrite Haction. reflexivity.
Qed.

Lemma index_filter (f : form) (db : database)
    (month_start month_end : PyDate.t) :
  get_current_month_range today = Some (month_start, month_end) ->
  form_get f "action" = Some "filter" ->
  view (mkreq POST f) db
  = render (fst (read_filter py_float f
                   (mklocals (PyDate.isoformat month_start)
                      (PyDate.isoformat month_end) "" None None DEFAULT_BUDGET)))
      (snd (read_filter py_float f
              (mklocals (PyDate.isoformat month_start)
                 (PyDate.isoformat month_end) "" None None DEFAULT_BUDGET)))
      db.
Proof.
  intros Hclock Haction. unfold view, index. rewrite Hclock. simpl.
  rewrite Haction. simpl.
  destruct (read_filter py_float f _) as [v flashed]. reflexivity.
Qed.

(** What [render] hands to the template. *)
Lemma render_outcome (v : locals) (flashed : list flash) (db : database) :
  exists ctx,
    render v flashed db = (db, flashed, RenderIndex ctx)
    /\ Ctx.budget ctx = l_budget v
    /\ Ctx.total_income ctx
       = Stats.total_income
           (snd (get_stats (l_start_date v) (l_end_date v)
                   (Some (l_category_filter v)) (l_min_amount v)
                   (l_max_amount v) db))
    /\ Ctx.total_expense ctx
       = Stats.total_expense
           (snd (get_stats (l_start_date v) (l_end_date v)
                   (Some (l_category_filter v)) (l_min_amount v)
                   (l_max_amount v) db))
    /\ Ctx.budget_diff ctx = (Ctx.budget ctx - Ctx.total_expense ctx)%Q
    /\ Ctx.balance ctx = (Ctx.total_income ctx - Ctx.total_expense ctx)%Q.
Proof.
  unfold render. rewrite get_stats_unfold. simpl.
  eexists. split; [reflexivity |]. simpl. auto.
Qed.

Lemma render_flashes_irrelevant (v : locals) (fl1 fl2 : list flash)
    (db : database) :
  out_response (render v fl1 db) = out_response (render v fl2 db)
  /\ out_db (render v fl1 db) = db
  /\ out_flashes (render v fl1 db) = fl1.
Proof.
  unfold render. rewrite get_stats_unfold. simpl. auto.
Qed.

Lemma read_filter_warnings (f : form) (defaults : locals) (m : flash) :
  In m (snd (read_filter py_float f defaults)) -> flash_category m = "warning".
Proof.
  unfold read_filter.
  destruct (read_bound py_float (PyStr.strip (form_get_default f "min_amount" ""))
              MSG_MIN) as [mn w1] eqn:E1.
  destruct (read_bound py_float (PyStr.strip (form_get_default f "max_amount" ""))
              MSG_MAX) as [mx w2] eqn:E2.
  assert (H1 : forall m, In m w1 -> flash_category m = "warning").
  { intros m0 H. change w1 with (snd (mn, w1)) in H. rewrite <- E1 in H.
    exact (read_bound_warning _ _ MSG_MIN _ eq_refl H). }
  assert (H2 : forall m, In m w2 -> flash_category m = "warning").
  { intros m0 H. change w2 with (snd (mx, w2)) in H. rewrite <- E2 in H.
    exact (read_bound_warning _ _ MSG_MAX _ eq_refl H). }
  unfold read_budget.
  destruct (PyStr.truthy (PyStr.strip (form_get_default f "budget" "")));
    [destruct (py_float (PyStr.strip (form_get_default f "budget" ""))) |];
    simpl; rewrite !in_app_iff; simpl; intros [H | [H | H]]; auto;
    try contradiction.
  destruct H as [<- | []]. reflexivity.
Qed.

Lemma truthy_nonempty (s : string) : s <> "" -> PyStr.truthy s = true.
Proof. destruct s; [congruence | reflexivity]. Qed.

Lemma read_filter_dropped (f : form) (defaults : locals) (key raw : string) :
  l_budget defaults = DEFAULT_BUDGET ->
  In key ["min_amount"; "max_amount"; "budget"] ->
  form_get f key = Some raw ->
  py_float (PyStr.strip raw) = None ->
  fst (read_filter py_float f defaults)
  = fst (read_filter py_float (form_without key f) defaults)
  /\ (PyStr.strip raw <> "" ->
      In (advisory key) (snd (read_filter py_float f defaults))).
Proof.
  intros Hb Hkey Hraw Hfail.
  unfold read_filter, form_get_default.
  simpl in Hkey. destruct Hkey as [<- | [<- | [<- | []]]];
    rewrite form_get_without_same, !form_get_without_other by discriminate;
    rewrite Hraw, strip_empty.
  - rewrite (read_bound_failure _ _ _ Hfail).
    change (read_bound py_float "" MSG_MIN) with (@None Q, @nil flash).
    destruct (read_bound py_float _ MSG_MAX) as [mx w2].
    destruct (read_budget py_float _ _) as [b w3]. simpl.
    split; [reflexivity |].
    intros Hne. rewrite (truthy_nonempty _ Hne). left. reflexivity.
  - rewrite (read_bound_failure _ _ MSG_MAX Hfail).
    change (read_bound py_float "" MSG_MAX) with (@None Q, @nil flash).
    destruct (read_bound py_float _ MSG_MIN) as [mn w1].
    destruct (read_budget py_float _ _) as [b w3]. simpl.
    split; [reflexivity |].
    intros Hne. rewrite (truthy_nonempty _ Hne).
    apply in_or_app. right. left. reflexivity.
  - destruct (read_bound py_float _ MSG_MIN) as [mn w1].
    destruct (read_bound py_float _ MSG_MAX) as [mx w2].
    unfold read_budget. rewrite Hfail, Hb. simpl PyStr.truthy.
    destruct (PyStr.truthy (PyStr.strip raw)) eqn:Et; simpl;
      (split; [reflexivity | intros Hne; rewrite (truthy_nonempty _ Hne) in Et]);
      [| discriminate].
    apply in_or_app. right. apply in_or_app. right. left. reflexivity.
Qed.

Lemma allowed_type_iff (record_type : option string) :
  allowed_type record_type = true <->
  record_type = Some "income" \/ record_type = Some "expense".
Proof.
  unfold allowed_type. destruct record_type as [ty |].
  - rewrite orb_true_iff, !String.eqb_eq.
    split; intros [H | H]; [left | right | left | right]; congruence.
  - split; [discriminate | intros [H | H]; discriminate].
Qed.

Lemma add_record_accepted (f : form) (db : database) (a : Q) (ty : string) :
  py_float (PyStr.strip (form_get_default f "amount" "")) = Some a ->
  form_get f "type" = Some ty ->
  ty = "income" \/ ty = "expense" ->
  PyStr.strip (form_get_default f "category" "") <> "" ->
  add_record py_float today current_timestamp f db
  = (inserted current_timestamp db a ty
       (PyStr.strip (form_get_default f "category" ""))
       (PyStr.or_else (form_get f "date") (PyDate.isoformat today))
       (Some (PyStr.strip (form_get_default f "note" ""))),
     [MSG_ADDED], RedirectToIndex).
Proof.
  intros Ha Hty Hallowed Hcat. unfold add_record. rewrite Ha, Hty.
  assert (Hal : allowed_type (Some ty) = true).
  { apply allowed_type_iff. destruct Hallowed; subst; auto. }
  rewrite Hal, (truthy_nonempty _ Hcat). simpl.
  unfold insert_record. simpl in Hal. rewrite Hal. reflexivity.
Qed.

(** C4. For every store and every filter request whose [min_amount],
    [max_amount] or [budget] does not parse as a number, the request
    is rendered, with the page of the same request without that field;
    the store is untouched, every message flashed is a warning, and a
    field that is not blank is reported by its advisory. *)
Theorem malformed_filter_input_dropped (f : form) (db : database)
    (key raw : string) (month_start month_end : PyDate.t) :
  get_current_month_range today = Some (month_start, month_end) ->
  form_get f "action" = Some "filter" ->
  In key ["min_amount"; "max_amount"; "budget"] ->
  form_get f key = Some raw ->
  py_float (PyStr.strip raw) = None ->
  (exists ctx,
      out_response (view (mkreq POST f) db) = RenderIndex ctx
      /\ out_response (view (mkreq POST (form_without key f)) db)
         = RenderIndex ctx)
  /\ out_db (view (mkreq POST f) db) = db
  /\ (forall m, In m (out_flashes (view (mkreq POST f) db)) ->
                flash_category m = "warning")
  /\ (PyStr.strip raw <> "" ->
      In (advisory key) (out_flashes (view (mkreq POST f) db))).
Proof.
  intros Hclock Haction Hkey Hraw Hfail.
  assert (Haction' : form_get (form_without key f) "action" = Some "filter").
  { rewrite form_get_without_other; [exact Haction |].
    simpl in Hkey. destruct Hkey as [<- | [<- | [<- | []]]]; discriminate. }
  rewrite (index_filter f db _ _ Hclock Haction).
  rewrite (index_filter _ db _ _ Hclock Haction').
  set (defaults := mklocals _ _ _ _ _ _).
  destruct (read_filter_dropped f defaults key raw eq_refl Hkey Hraw Hfail)
    as [Hsame Hadv].
  rewrite <- Hsame.
  destruct (render_outcome (fst (read_filter py_float f defaults))
              (snd (read_filter py_float f defaults)) db)
    as [ctx [Hr _]].
  destruct (render_flashes_irrelevant (fst (read_filter py_float f defaults))
              (snd (read_filter py_float f defaults))
              (snd (read_filter py_float (form_without key f) defaults)) db)
    as [Hresp [Hdb Hfl]].
  split; [| split; [| split]].
  - exists ctx. rewrite <- Hresp, Hr. auto.
  - exact Hdb.
  - rewrite Hfl. apply read_filter_warnings.
  - rewrite Hfl. exact Hadv.
Qed.

(** C5. Every insert request whose amount is not a number, whose kind
    is neither income nor expense, or whose category is empty once
    trimmed is answered by a redirect with one danger message, and
    leaves the store as it was: no row is added. *)
Theorem invalid_insert_rejected (f : form) (db : database)
    (month_start month_end : PyDate.t) :
  get_current_month_range today = Some (month_start, month_end) ->
  form_get f "action" = Some "add_record" ->
  py_float (PyStr.strip (form_get_default f "amount" "")) = None
  \/ (form_get f "type" <> Some "income"
      /\ form_get f "type" <> Some "expense")
  \/ PyStr.strip (form_get_default f "category" "") = "" ->
  out_db (view (mkreq POST f) db) = db
  /\ List.length (records (out_db (view (mkreq POST f) db)))
     = List.length (records db)
  /\ out_response (view (mkreq POST f) db) = RedirectToIndex
  /\ exists message, out_flashes (view (mkreq POST f) db) = [(message, "danger")].
Proof.
  intros Hclock Haction Hbad.
  rewrite (index_add_record f db _ _ Hclock Haction). unfold add_record.
  assert (Hrejected : forall message : string,
             let o : outcome := (db, [(message, "danger")], RedirectToIndex) in
             out_db o = db
             /\ List.length (records (out_db o)) = List.length (records db)
             /\ out_response o = RedirectToIndex
             /\ exists message', out_flashes o = [(message', "danger")]).
  { intros message. simpl. repeat (split; [reflexivity |]).
    exists message. reflexivity. }
  destruct (py_float _) as [a |]; [| apply Hrejected].
  destruct (allowed_type (form_get f "type")) eqn:Hal; simpl;
    [| apply Hrejected].
  destruct (PyStr.truthy (PyStr.strip (form_get_default f "category" "")))
    eqn:Hcat; simpl; [| apply Hrejected].
  exfalso. destruct Hbad as [H | [[H1 H2] | H]].
  - discriminate.
  - apply allowed_type_iff in Hal. tauto.
  - rewrite H in Hcat. discriminate.
Qed.

(** C7. Whatever the request and the store, the page is handed
    [budget_diff = budget - total_expense], with nothing applied to
    the difference, and [balance = total_income - total_expense]. *)
Theorem budget_diff_is_budget_minus_expense (req : request) (db : database)
    (ctx : Ctx.t) :
  out_response (view req db) = RenderIndex ctx ->
  Ctx.budget_diff ctx = (Ctx.budget ctx - Ctx.total_expense ctx)%Q
  /\ Ctx.balance ctx = (Ctx.total_income ctx - Ctx.total_expense ctx)%Q.
Proof.
  assert (Hrender : forall v fl,
             out_response (render v fl db) = RenderIndex ctx ->
             Ctx.budget_diff ctx = (Ctx.budget ctx - Ctx.total_expense ctx)%Q
             /\ Ctx.balance ctx
                = (Ctx.total_income ctx - Ctx.total_expense ctx)%Q).
  { intros v fl H. destruct (render_outcome v fl db) as [c [Hr [_ [_ [_ Hc]]]]].
    rewrite Hr in H. inversion H. subst c. exact Hc. }
  unfold index.
  destruct (get_current_month_range today) as [[ms me] |]; [| discriminate].
  destruct req as [[|] f]; cbn [method req_form]; [apply Hrender |].
  destruct (form_get f "action") as [a |]; [| apply Hrender].
  destruct (String.eqb a "add_record").
  - unfold add_record.
    destruct (py_float _); [| discriminate].
    destruct (negb (allowed_type _)); [discriminate |].
    destruct (negb (PyStr.truthy _)); [discriminate |].
    destruct (insert_record _ _ _ _ _ _ _); discriminate.
  - destruct (String.eqb a "filter"); [| apply Hrender].
    destruct (read_filter py_float f _) as [v fl]. apply Hrender.
Qed.

(** Every insert request whose amount parses to a finite number, be
    it zero or negative, whose kind is income or expense and whose
    category is not empty once trimmed succeeds: one row holding that
    amount is appended to the store. *)
Theorem insert_accepts_any_number (f : form) (db : database) (a : Q)
    (ty : string) (month_start month_end : PyDate.t) :
  get_current_month_range today = Some (month_start, month_end) ->
  form_get f "action" = Some "add_record" ->
  py_float (PyStr.strip (form_get_default f "amount" "")) = Some a ->
  form_get f "type" = Some ty ->
  ty = "income" \/ ty = "expense" ->
  PyStr.strip (form_get_default f "category" "") <> "" ->
  out_response (view (mkreq POST f) db) = RedirectToIndex
  /\ out_flashes (view (mkreq POST f) db) = [MSG_ADDED]
  /\ exists r,
       records (out_db (view (mkreq POST f) db)) = (records db ++ [r])%list
       /\ Row.amount r = a
       /\ Row.type r = ty
       /\ Row.category r = PyStr.strip (form_get_default f "category" "").
Proof.
  intros Hclock Haction Ha Hty Hallowed Hcat.
  rewrite (index_add_record f db _ _ Hclock Haction).
  rewrite (add_record_accepted f db a ty Ha Hty Hallowed Hcat).
  split; [reflexivity | split; [reflexivity |]].
  eexists. split; [reflexivity |]. simpl. auto.
Qed.

(** C10. The date of an insert request is not checked: whenever the
    amount, the kind and the category are accepted, the row is stored
    with the date field as submitted, whatever string it is, and with
    today's date when the field is absent or empty. *)
Theorem insert_date_unvalidated (f : form) (db : database) (a : Q)
    (ty : string) (month_start month_end : PyDate.t) :
  get_current_month_range today = Some (month_start, month_end) ->
  form_get f "action" = Some "add_record" ->
  py_float (PyStr.strip (form_get_default f "amount" "")) = Some a ->
  form_get f "type" = Some ty ->
  ty = "income" \/ ty = "expense" ->
  PyStr.strip (form_get_default f "category" "") <> "" ->
  out_flashes (view (mkreq POST f) db) = [MSG_ADDED]
  /\ exists r,
       records (out_db (view (mkreq POST f) db)) = (records db ++ [r])%list
       /\ Row.date r
          = match form_get f "date" with
            | Some (String _ _ as d) => d
            | Some EmptyString | None => PyDate.isoformat today
            end.
Proof.
  intros Hclock Haction Ha Hty Hallowed Hcat.
  rewrite (index_add_record f db _ _ Hclock Haction).
  rewrite (add_record_accepted f db a ty Ha Hty Hallowed Hcat).
  split; [reflexivity |].
  eexists. split; [reflexivity |]. simpl.
  destruct (form_get f "date") as [[| c d] |]; reflexivity.
Qed.

End ViewProperties.

(* ================================================================= *)
(** ** The sample requests *)

Example strip_sample : PyStr.strip "  food 	" = "food".
Proof. reflexivity. Qed.

Example month_range_feb_2024 :
  option_map (fun p => (PyDate.isoformat (fst p), PyDate.isoformat (snd p)))
    (get_current_month_range (PyDate.mk 2024 2 10))
  = Some ("2024-02-01", "2024-02-29").
Proof. reflexivity. Qed.

Example decimal_float_samples :
  decimal_float "abc" = None
  /\ decimal_float "" = None
  /\ decimal_float "12.5" = Some (125 # 10)
  /\ decimal_float "-5" = Some (- (5 # 1))%Q
  /\ decimal_float "0" = Some (0 # 1).
Proof. repeat split. Qed.

(** A filter request with [min_amount = "abc"] on the food and rent
    ledger. *)
Lemma malformed_filter_input_dropped_witness :
  (exists ctx,
      out_response (sample_view (mkreq POST filter_min_abc) ledger_food_rent)
      = RenderIndex ctx
      /\ out_response
           (sample_view (mkreq POST (form_without "min_amount" filter_min_abc))
              ledger_food_rent)
         = RenderIndex ctx)
  /\ out_db (sample_view (mkreq POST filter_min_abc) ledger_food_rent)
     = ledger_food_rent
  /\ (forall m,
        In m (out_flashes
                (sample_view (mkreq POST filter_min_abc) ledger_food_rent)) ->
        flash_category m = "warning")
  /\ (PyStr.strip "abc" <> "" ->
      In (advisory "min_amount")
        (out_flashes (sample_view (mkreq POST filter_min_abc) ledger_food_rent))).
Proof.
  apply (malformed_filter_input_dropped decimal_float sample_today sample_now
           filter_min_abc ledger_food_rent "min_amount" "abc"
           (PyDate.mk 2024 1 1) (PyDate.mk 2024 1 31)).
  - reflexivity.
  - reflexivity.
  - simpl. left. reflexivity.
  - reflexivity.
  - reflexivity.
Defined.

(** An insert request of kind "transfer". *)
Lemma invalid_insert_rejected_witness :
  out_db (sample_view (mkreq POST add_transfer) ledger_food_rent)
  = ledger_food_rent
  /\ List.length
       (records (out_db (sample_view (mkreq POST add_transfer) ledger_food_rent)))
     = List.length (records ledger_food_rent)
  /\ out_response (sample_view (mkreq POST add_transfer) ledger_food_rent)
     = RedirectToIndex
  /\ exists message,
       out_flashes (sample_view (mkreq POST add_transfer) ledger_food_rent)
       = [(message, "danger")].
Proof.
  apply (invalid_insert_rejected decimal_float sample_today sample_now
           add_transfer ledger_food_rent
           (PyDate.mk 2024 1 1) (PyDate.mk 2024 1 31)).
  - reflexivity.
  - reflexivity.
  - right. left. simpl. split; discriminate.
Defined.

(** A budget of 300 against an expense of 500: the difference is -200. *)
Lemma budget_diff_is_budget_minus_expense_witness :
  exists ctx,
    out_response (sample_view (mkreq POST filter_budget_300) ledger_rent_500)
    = RenderIndex ctx
    /\ Ctx.total_expense ctx = 500%Q
    /\ Ctx.budget ctx = 300%Q
    /\ Ctx.budget_diff ctx = (Ctx.budget ctx - Ctx.total_expense ctx)%Q
    /\ Ctx.budget_diff ctx = (-200 # 1)%Q.
Proof.
  eexists. split; [reflexivity |].
  split; [reflexivity |]. split; [reflexivity |]. split; [| reflexivity].
  apply (budget_diff_is_budget_minus_expense decimal_float sample_today
           sample_now (mkreq POST filter_budget_300) ledger_rent_500).
  reflexivity.
Defined.

(** An insert request with the amount -5. *)
Lemma insert_accepts_any_number_witness :
  out_response (sample_view (mkreq POST add_negative) ledger_food_rent)
  = RedirectToIndex
  /\ out_flashes (sample_view (mkreq POST add_negative) ledger_food_rent)
     = [MSG_ADDED]
  /\ exists r,
       records (out_db (sample_view (mkreq POST add_negative) ledger_food_rent))
       = (records ledger_food_rent ++ [r])%list
       /\ Row.amount r = (- (5 # 1))%Q
       /\ Row.type r = "expense"
       /\ Row.category r = PyStr.strip " food ".
Proof.
  apply (insert_accepts_any_number decimal_float sample_today sample_now
           add_negative ledger_food_rent (- (5 # 1))%Q "expense"
           (PyDate.mk 2024 1 1) (PyDate.mk 2024 1 31)).
  - reflexivity.
  - reflexivity.
  - reflexivity.
  - reflexivity.
  - right. reflexivity.
  - simpl. discriminate.
Defined.

(** An insert request dated "not-a-date". *)
Lemma insert_date_unvalidated_witness :
  out_flashes (sample_view (mkreq POST add_odd_date) ledger_food_rent)
  = [MSG_ADDED]
  /\ exists r,
       records (out_db (sample_view (mkreq POST add_odd_date) ledger_food_rent))
       = (records ledger_food_rent ++ [r])%list
       /\ Row.date r = "not-a-date".
Proof.
  apply (insert_date_unvalidated decimal_float sample_today sample_now
           add_odd_date ledger_food_rent (40 # 1) "income"
           (PyDate.mk 2024 1 1) (PyDate.mk 2024 1 31)).
  - reflexivity.
  - reflexivity.
  - reflexivity.
  - reflexivity.
  - left. reflexivity.
  - simpl. discriminate.
Defined.

(* ================================================================= *)
(** ** Further properties: the calendar *)

Lemma days_in_month_bounds (y m : Z) :
  28 <= PyDate.days_in_month y m <= 31.
Proof.
  unfold PyDate.days_in_month.
  destruct (m =? 2); [destruct (PyDate.is_leap y); lia |].
  destruct ((m =? 4) || (m =? 6) || (m =? 9) || (m =? 11)); lia.
Qed.

Lemma date_Some (y m d : Z) :
  1 <= y <= 9999 -> 1 <= m <= 12 -> 1 <= d <= PyDate.days_in_month y m ->
  PyDate.date y m d = Some (PyDate.mk y m d).
Proof.
  intros Hy Hm Hd. unfold PyDate.date, PyDate.MINYEAR, PyDate.MAXYEAR.
  replace (1 <=? y) with true by (symmetry; apply Z.leb_le; lia).
  replace (y <=? 9999) with true by (symmetry; apply Z.leb_le; lia).
  replace (1 <=? m) with true by (symmetry; apply Z.leb_le; lia).
  replace (m <=? 12) with true by (symmetry; apply Z.leb_le; lia).
  replace (1 <=? d) with true by (symmetry; apply Z.leb_le; lia).
  replace (d <=? PyDate.days_in_month y m) with true
    by (symmetry; apply Z.leb_le; lia).
  reflexivity.
Qed.

Lemma date_inv (y m d : Z) (x : PyDate.t) :
  PyDate.date y m d = Some x ->
  x = PyDate.mk y m d
  /\ 1 <= y <= 9999 /\ 1 <= m <= 12 /\ 1 <= d <= PyDate.days_in_month y m.
Proof.
  unfold PyDate.date, PyDate.MINYEAR, PyDate.MAXYEAR.
  destruct (1 <=? y) eqn:E1; [| discriminate].
  destruct (y <=? 9999) eqn:E2; [| discriminate].
  destruct (1 <=? m) eqn:E3; [| discriminate].
  destruct (m <=? 12) eqn:E4; [| discriminate].
  destruct (1 <=? d) eqn:E5; [| discriminate].
  destruct (d <=? PyDate.days_in_month y m) eqn:E6; [| discriminate].
  simpl. intros H. inversion H.
  apply Z.leb_le in E1, E2, E3, E4, E5, E6. repeat split; lia.
Qed.

Lemma date_None_year (y m d : Z) : 9999 < y -> PyDate.date y m d = None.
Proof.
  intros H. unfold PyDate.date, PyDate.MAXYEAR.
  replace (y <=? 9999) with false by (symmetry; apply Z.leb_gt; lia).
  rewrite andb_false_r. reflexivity.
Qed.

Lemma calendar_date_inv (x : PyDate.t) :
  calendar_date x ->
  1 <= PyDate.year x <= 9999 /\ 1 <= PyDate.month x <= 12
  /\ 1 <= PyDate.day x <= PyDate.days_in_month (PyDate.year x) (PyDate.month x).
Proof.
  intros H. apply date_inv in H. tauto.
Qed.

Lemma month_range_first_last (today : PyDate.t) :
  calendar_date today ->
  PyDate.year today < 9999 \/ PyDate.month today < 12 ->
  get_current_month_range today
  = Some (PyDate.mk (PyDate.year today) (PyDate.month today) 1,
          PyDate.mk (PyDate.year today) (PyDate.month today)
            (PyDate.days_in_month (PyDate.year today) (PyDate.month today))).
Proof.
  intros Hcal Hnot_last. destruct today as [y m d].
  apply calendar_date_inv in Hcal. simpl in *.
  destruct Hcal as [Hy [Hm Hd]].
  pose proof (days_in_month_bounds y m) as Hdim.
  unfold get_current_month_range, PyDate.replace_day. simpl.
  rewrite (date_Some y m 1) by lia.
  destruct (Z.eqb_spec m 12) as [-> | Hm12].
  - pose proof (days_in_month_bounds (y + 1) 1) as Hjan.
    rewrite (date_Some (y + 1) 1 1) by lia.
    unfold PyDate.sub_one_day. simpl.
    replace (y + 1 - 1) with y by lia.
    assert (Hdec : PyDate.days_in_month y 12 = 31) by reflexivity.
    rewrite (date_Some y 12 31) by lia.
    reflexivity.
  - pose proof (days_in_month_bounds y (m + 1)) as Hnext.
    rewrite (date_Some y (m + 1) 1) by lia.
    unfold PyDate.sub_one_day. simpl.
    replace (1 <? m + 1) with true by (symmetry; apply Z.ltb_lt; lia).
    replace (m + 1 - 1) with m by lia.
    rewrite (date_Some y m (PyDate.days_in_month y m)) by lia.
    reflexivity.
Qed.

(** X1. On a calendar day [get_current_month_range] returns the first
    and the last day of that day's month, leap years and December
    included; in December 9999 alone it raises, the next month being
    out of the range of [date]. *)
Theorem month_range_is_the_month (today : PyDate.t) :
  calendar_date today ->
  get_current_month_range today
  = if (PyDate.year today =? 9999) && (PyDate.month today =? 12)
    then None
    else
      Some (PyDate.mk (PyDate.year today) (PyDate.month today) 1,
            PyDate.mk (PyDate.year today) (PyDate.month today)
              (PyDate.days_in_month (PyDate.year today) (PyDate.month today))).
Proof.
  intros Hcal. pose proof (calendar_date_inv today Hcal) as [Hy [Hm _]].
  destruct (Z.eqb_spec (PyDate.year today) 9999) as [Ey | Ey];
    [destruct (Z.eqb_spec (PyDate.month today) 12) as [Em | Em] |]; simpl.
  - destruct today as [y m d]. simpl in Ey, Em. subst y m. reflexivity.
  - apply month_range_first_last; [exact Hcal | lia].
  - apply month_range_first_last; [exact Hcal | lia].
Qed.

Lemma month_range_is_the_month_witness :
  get_current_month_range (PyDate.mk 2024 2 10)
  = Some (PyDate.mk 2024 2 1, PyDate.mk 2024 2 29).
Proof.
  apply (month_range_is_the_month (PyDate.mk 2024 2 10)).
  reflexivity.
Defined.

(** X2. In December 9999 the first day of the next month is no date:
    [get_current_month_range] raises, and the view answers every
    request with a server error, the store untouched. *)
Theorem view_fails_in_december_9999 (py_float : string -> option Q)
    (today : PyDate.t) (now : string) (req : request) (db : database) :
  PyDate.year today = 9999 -> PyDate.month today = 12 ->
  get_current_month_range today = None
  /\ index py_float today now req db = (db, [], InternalServerError).
Proof.
  intros Hy Hm. destruct today as [y m d]. simpl in Hy, Hm. subst y m.
  assert (Hnone : get_current_month_range (PyDate.mk 9999 12 d) = None).
  { reflexivity. }
  split; [exact Hnone |]. unfold index. rewrite Hnone. reflexivity.
Qed.

Lemma view_fails_in_december_9999_witness :
  get_current_month_range (PyDate.mk 9999 12 31) = None
  /\ index decimal_float (PyDate.mk 9999 12 31) sample_now get_page
       ledger_food_rent
     = (ledger_food_rent, [], InternalServerError).
Proof.
  apply (view_fails_in_december_9999 decimal_float (PyDate.mk 9999 12 31)
           sample_now get_page ledger_food_rent); reflexivity.
Defined.

(* ================================================================= *)
(** ** Further properties: dates as text *)

Lemma string_compare_app (s1 s2 t1 t2 : string) :
  String.length s1 = String.length s2 ->
  String.compare (s1 ++ t1) (s2 ++ t2)
  = match String.compare s1 s2 with
    | Eq => String.compare t1 t2
    | c => c
    end.
Proof.
  revert s2. induction s1 as [| a s1 IH]; intros [| b s2] Hlen;
    simpl in *; try discriminate; auto.
  destruct (Ascii.compare a b); auto.
Qed.

Lemma string_length_app (s t : string) :
  String.length (s ++ t) = (String.length s + String.length t)%nat.
Proof.
  induction s as [| a s IH]; simpl; auto.
Qed.

Lemma digits_length (w : nat) (n : Z) : String.length (PyDate.digits w n) = w.
Proof.
  revert n. induction w as [| w IH]; intros n; simpl; auto.
  rewrite string_length_app, IH. simpl. lia.
Qed.

Lemma digit_compare (a b : Z) :
  Ascii.compare (PyDate.digit a) (PyDate.digit b) = (a mod 10 ?= b mod 10).
Proof.
  unfold Ascii.compare, PyDate.digit.
  pose proof (Z.mod_pos_bound a 10 ltac:(lia)) as Ha.
  pose proof (Z.mod_pos_bound b 10 ltac:(lia)) as Hb.
  rewrite !N_ascii_embedding by lia.
  rewrite <- N2Z.inj_compare, !N2Z.inj_add, !Z2N.id by lia.
  apply Z.add_compare_mono_l.
Qed.

Lemma compare_by_last_digit (a b : Z) :
  (a ?= b)
  = match a / 10 ?= b / 10 with
    | Eq => a mod 10 ?= b mod 10
    | c => c
    end.
Proof.
  pose proof (Z.div_mod a 10 ltac:(lia)) as Ha.
  pose proof (Z.div_mod b 10 ltac:(lia)) as Hb.
  pose proof (Z.mod_pos_bound a 10 ltac:(lia)) as Ha'.
  pose proof (Z.mod_pos_bound b 10 ltac:(lia)) as Hb'.
  destruct (Z.compare_spec (a / 10) (b / 10)) as [E | E | E].
  - destruct (Z.compare_spec (a mod 10) (b mod 10)) as [E' | E' | E'].
    + apply Z.compare_eq_iff. lia.
    + apply Z.compare_lt_iff. lia.
    + apply Z.compare_gt_iff. lia.
  - apply Z.compare_lt_iff. lia.
  - apply Z.compare_gt_iff. lia.
Qed.

(** Numbers printed with the same number of digits compare as text
    the way they compare as numbers. *)
Lemma digits_compare (w : nat) :
  forall a b : Z,
    String.compare (PyDate.digits w a) (PyDate.digits w b)
    = (a mod 10 ^ Z.of_nat w ?= b mod 10 ^ Z.of_nat w).
Proof.
  induction w as [| w IH]; intros a b.
  - simpl. rewrite !Z.mod_1_r. reflexivity.
  - cbn [PyDate.digits].
    rewrite string_compare_app by (rewrite !digits_length; reflexivity).
    rewrite IH. cbn [String.compare]. rewrite digit_compare.
    rewrite (compare_by_last_digit (a mod 10 ^ Z.of_nat (S w))
               (b mod 10 ^ Z.of_nat (S w))).
    assert (Hpow : 10 ^ Z.of_nat (S w) = 10 * 10 ^ Z.of_nat w).
    { rewrite Nat2Z.inj_succ, Z.pow_succ_r by lia. reflexivity. }
    assert (Hpos : 0 < 10 ^ Z.of_nat w) by (apply Z.pow_pos_nonneg; lia).
    assert (Hdiv : forall n, (n mod 10 ^ Z.of_nat (S w)) / 10
                             = (n / 10) mod 10 ^ Z.of_nat w).
    { intros n. rewrite Hpow. rewrite Z.rem_mul_r by lia.
      rewrite (Z.mul_comm 10), Z.div_add by lia.
      rewrite (Z.div_small (n mod 10) 10)
        by (apply Z.mod_pos_bound; lia).
      reflexivity. }
    assert (Hmod : forall n, (n mod 10 ^ Z.of_nat (S w)) mod 10 = n mod 10).
    { intros n. rewrite Hpow. rewrite Z.rem_mul_r by lia.
      rewrite (Z.mul_comm 10), Z.mod_add by lia.
      apply Z.mod_mod. lia. }
    rewrite !Hdiv, !Hmod.
    destruct (_ ?= _); try reflexivity.
    destruct (a mod 10 ?= b mod 10); reflexivity.
Qed.

Lemma isoformat_compare (a b : PyDate.t) :
  calendar_date a -> calendar_date b ->
  String.compare (PyDate.isoformat a) (PyDate.isoformat b) = date_compare a b.
Proof.
  intros Ha Hb. apply calendar_date_inv in Ha, Hb.
  pose proof (days_in_month_bounds (PyDate.year a) (PyDate.month a)).
  pose proof (days_in_month_bounds (PyDate.year b) (PyDate.month b)).
  assert (Hdash : forall s t,
             String.compare ("-" ++ s) ("-" ++ t) = String.compare s t)
    by reflexivity.
  unfold PyDate.isoformat, date_compare.
  rewrite string_compare_app by (rewrite !digits_length; reflexivity).
  rewrite digits_compare. change (10 ^ Z.of_nat 4) with 10000.
  rewrite !Z.mod_small by lia.
  destruct (PyDate.year a ?= PyDate.year b); try reflexivity.
  rewrite Hdash.
  rewrite string_compare_app by (rewrite !digits_length; reflexivity).
  rewrite digits_compare. change (10 ^ Z.of_nat 2) with 100.
  rewrite !Z.mod_small by lia.
  destruct (PyDate.month a ?= PyDate.month b); try reflexivity.
  rewrite Hdash, digits_compare. change (10 ^ Z.of_nat 2) with 100.
  rewrite !Z.mod_small by lia.
  reflexivity.
Qed.

Lemma isoformat_leb (a b : PyDate.t) :
  calendar_date a -> calendar_date b ->
  (String.leb (PyDate.isoformat a) (PyDate.isoformat b) = true
   <-> date_compare a b <> Gt).
Proof.
  intros Ha Hb. unfold String.leb. rewrite (isoformat_compare a b Ha Hb).
  destruct (date_compare a b); split; congruence.
Qed.

(** X3. Calendar dates in ISO form compare as text the way the dates
    compare: the text range of [date BETWEEN ? AND ?] is the range of
    days. *)
Theorem isoformat_keeps_order (a b : PyDate.t) :
  calendar_date a -> calendar_date b ->
  (String.leb (PyDate.isoformat a) (PyDate.isoformat b) = true
   <-> date_compare a b <> Gt)
  /\ (PyDate.isoformat a = PyDate.isoformat b <-> a = b).
Proof.
  intros Ha Hb. pose proof (isoformat_compare a b Ha Hb) as Hcmp.
  split.
  - apply isoformat_leb; assumption.
  - split; [| intros ->; reflexivity].
    intros Heq. rewrite Heq, string_compare_refl in Hcmp.
    symmetry in Hcmp. unfold date_compare in Hcmp.
    destruct a as [y m d], b as [y' m' d']. simpl in Hcmp.
    destruct (Z.compare_spec y y'); try discriminate.
    destruct (Z.compare_spec m m'); try discriminate.
    apply Z.compare_eq_iff in Hcmp. congruence.
Qed.

Lemma isoformat_keeps_order_witness :
  (String.leb (PyDate.isoformat (PyDate.mk 2024 2 29))
     (PyDate.isoformat (PyDate.mk 2024 3 1)) = true
   <-> date_compare (PyDate.mk 2024 2 29) (PyDate.mk 2024 3 1) <> Gt)
  /\ (PyDate.isoformat (PyDate.mk 2024 2 29)
      = PyDate.isoformat (PyDate.mk 2024 3 1)
      <-> PyDate.mk 2024 2 29 = PyDate.mk 2024 3 1).
Proof.
  apply (isoformat_keeps_order (PyDate.mk 2024 2 29) (PyDate.mk 2024 3 1));
    reflexivity.
Defined.

(* ================================================================= *)
(** ** Further properties: [get_stats] *)

Lemma string_leb_ltb_false (s d e : string) :
  String.leb s d = true -> String.leb d e = true -> String.ltb e s = false.
Proof.
  unfold String.leb, String.ltb. intros Hsd Hde.
  destruct (String.compare e s) eqn:Ees; try reflexivity. exfalso.
  destruct (String.compare d e) eqn:Ede; try discriminate.
  - apply String.compare_eq_iff in Ede. subst d.
    rewrite String.compare_antisym, Ees in Hsd. discriminate.
  - pose proof (string_compare_Lt_trans _ _ _ Ede Ees) as Hds.
    rewrite String.compare_antisym, Hds in Hsd. discriminate.
Qed.

Lemma filter_none {A : Type} (p : A -> bool) (l : list A) :
  (forall x, p x = false) -> filter p l = [].
Proof.
  intros H. induction l as [| x l IH]; simpl; auto.
  rewrite H. exact IH.
Qed.

Lemma get_stats_nothing_matches (s e : string) (c : option string)
    (mn mx : option Q) (db : database) :
  (forall r, satisfies_filter s e c mn mx r = false) ->
  snd (get_stats s e c mn mx db) = Stats.mk 0 0 [] [] [].
Proof.
  intros Hnone. rewrite get_stats_unfold. simpl. unfold matching.
  rewrite !(filter_none (fun r => type_is _ r && _))
    by (intros r; rewrite Hnone; apply andb_false_r).
  rewrite (filter_none _ _ Hnone). reflexivity.
Qed.

(** X4. Bounds that cross select nothing: with [max_amount] below
    [min_amount] the totals are 0 and the breakdown and the records are
    empty, whatever the store. *)
Theorem crossed_amount_bounds_select_nothing (s e : string)
    (c : option string) (mn mx : Q) (db : database) :
  (mx < mn)%Q ->
  snd (get_stats s e c (Some mn) (Some mx) db) = Stats.mk 0 0 [] [] [].
Proof.
  intros Hlt. apply get_stats_nothing_matches. intros r.
  unfold satisfies_filter.
  destruct (Qle_bool mn (Row.amount r)) eqn:E1;
    [| rewrite andb_false_r; reflexivity].
  destruct (Qle_bool (Row.amount r) mx) eqn:E2;
    [| rewrite andb_false_r; reflexivity].
  exfalso. apply Qle_bool_iff in E1, E2.
  apply (Qlt_irrefl mn).
  apply Qle_lt_trans with mx; [| exact Hlt].
  apply Qle_trans with (Row.amount r); assumption.
Qed.

Lemma crossed_amount_bounds_select_nothing_witness :
  snd (get_stats "2024-01-01" "2024-01-31" None (Some 100%Q) (Some 50%Q)
         ledger_food_rent)
  = Stats.mk 0 0 [] [] [].
Proof.
  apply (crossed_amount_bounds_select_nothing "2024-01-01" "2024-01-31" None
           100%Q 50%Q ledger_food_rent).
  reflexivity.
Defined.

(** X5. A date range whose end sorts before its start selects
    nothing. *)
Theorem crossed_dates_select_nothing (s e : string) (c : option string)
    (mn mx : option Q) (db : database) :
  String.ltb e s = true ->
  snd (get_stats s e c mn mx db) = Stats.mk 0 0 [] [] [].
Proof.
  intros Hlt. apply get_stats_nothing_matches. intros r.
  unfold satisfies_filter.
  destruct (String.leb s (Row.date r)) eqn:E1; [| reflexivity].
  destruct (String.leb (Row.date r) e) eqn:E2; [| reflexivity].
  rewrite (string_leb_ltb_false _ _ _ E1 E2) in Hlt. discriminate.
Qed.

Lemma crossed_dates_select_nothing_witness :
  snd (get_stats "2024-01-31" "2024-01-01" None None None ledger_food_rent)
  = Stats.mk 0 0 [] [] [].
Proof.
  apply (crossed_dates_select_nothing "2024-01-31" "2024-01-01" None None None
           ledger_food_rent).
  reflexivity.
Defined.

(** X6. A category filter that is blank once trimmed filters nothing:
    [get_stats] answers as it does without a category. *)
Theorem blank_category_is_no_filter (s e c : string) (mn mx : option Q)
    (db : database) :
  PyStr.strip c = "" ->
  get_stats s e (Some c) mn mx db = get_stats s e None mn mx db.
Proof.
  intros Hblank. unfold get_stats, build_conditions.
  rewrite Hblank. simpl PyStr.truthy. rewrite andb_false_r. reflexivity.
Qed.

Lemma blank_category_is_no_filter_witness :
  get_stats "2024-01-01" "2024-01-31" (Some "   ") None None ledger_food_rent
  = get_stats "2024-01-01" "2024-01-31" None None None ledger_food_rent.
Proof.
  apply (blank_category_is_no_filter "2024-01-01" "2024-01-31" "   " None None
           ledger_food_rent).
  reflexivity.
Defined.

Lemma satisfies_category (s e c : string) (mn mx : option Q) (r : Row.t) :
  PyStr.strip c <> "" ->
  satisfies_filter s e (Some c) mn mx r = true ->
  Row.category r = PyStr.strip c.
Proof.
  intros Hne. unfold satisfies_filter.
  destruct (String.eqb_spec (PyStr.strip c) "") as [E | _]; [contradiction |].
  rewrite !andb_true_iff. intros [[[_ H] _] _].
  apply String.eqb_eq. exact H.
Qed.

(** A category filter that is not blank is compared trimmed and
    exactly: every record returned and every label of the breakdown
    carries the trimmed filter as its category. *)
Lemma stats_carry_category (s e c : string) (mn mx : option Q)
    (db : database) :
  PyStr.strip c <> "" ->
  let stats := snd (get_stats s e (Some c) mn mx db) in
  Forall (fun d => Detail.category d = PyStr.strip c) (Stats.records stats)
  /\ Forall (fun label => label = PyStr.strip c) (Stats.category_labels stats).
Proof.
  intros Hne. rewrite get_stats_unfold. simpl. split.
  - rewrite Forall_forall. intros d Hd.
    apply in_map_iff in Hd. destruct Hd as [r [<- Hr]].
    apply (Permutation_in _ (order_by_Permutation _ _)) in Hr.
    apply filter_In in Hr. destruct Hr as [_ Hr]. simpl.
    exact (satisfies_category _ _ _ _ _ _ Hne Hr).
  - rewrite Forall_forall. intros label Hl.
    apply (Permutation_in _
             (Permutation_map fst (order_by_Permutation total_desc _))) in Hl.
    rewrite group_by_category_labels in Hl.
    apply nodup_In, in_map_iff in Hl. destruct Hl as [r [<- Hr]].
    apply matching_In in Hr. destruct Hr as [_ [_ Hr]].
    exact (satisfies_category _ _ _ _ _ _ Hne Hr).
Qed.

Lemma filter_app_one {A : Type} (p : A -> bool) (l : list A) (x : A) :
  filter p (l ++ [x]) = (filter p l ++ if p x then [x] else [])%list.
Proof.
  rewrite filter_app. simpl. destruct (p x); reflexivity.
Qed.

(** X7. A row that does not satisfy the filter does not count: the
    statistics of the store with that row appended are those of the
    store without it. *)
Theorem unmatched_row_changes_no_statistic (s e : string) (c : option string)
    (mn mx : option Q) (rows : list Row.t) (seq seq' : Z) (r : Row.t) :
  satisfies_filter s e c mn mx r = false ->
  snd (get_stats s e c mn mx (mkdb (rows ++ [r]) seq'))
  = snd (get_stats s e c mn mx (mkdb rows seq)).
Proof.
  intros Hout. rewrite !get_stats_unfold. unfold matching. simpl.
  rewrite !filter_app_one, Hout, !andb_false_r, !app_nil_r. reflexivity.
Qed.

Lemma unmatched_row_changes_no_statistic_witness :
  snd (get_stats "2024-01-01" "2024-01-31" None None None
         (mkdb (records ledger_food_rent
                ++ [Row.mk 3 70%Q "expense" "rent" "2024-02-06" None "t"]) 3))
  = snd (get_stats "2024-01-01" "2024-01-31" None None None
           (mkdb (records ledger_food_rent) 2)).
Proof.
  apply (unmatched_row_changes_no_statistic "2024-01-01" "2024-01-31" None
           None None (records ledger_food_rent) 2 3
           (Row.mk 3 70%Q "expense" "rent" "2024-02-06" None "t")).
  reflexivity.
Defined.





(* ================================================================= *)
(** ** Further properties: trimming *)

Functional Scheme lstrip_ind := Induction for PyStr.lstrip Sort Prop.
Functional Scheme lstrip_rev_ind := Induction for PyStr.lstrip_rev Sort Prop.

Lemma lstrip_idempotent (s : string) :
  PyStr.lstrip (PyStr.lstrip s) = PyStr.lstrip s.
Proof.
  functional induction (PyStr.lstrip s); auto; simpl;
    repeat match goal with
           | H : _ = false |- _ => rewrite H
           | H : _ = true |- _ => rewrite H
           end; auto.
Qed.

Lemma lstrip_rev_idempotent (l : list ascii) :
  PyStr.lstrip_rev (PyStr.lstrip_rev l) = PyStr.lstrip_rev l.
Proof.
  functional induction (PyStr.lstrip_rev l); auto; simpl;
    repeat match goal with
           | H : _ = false |- _ => rewrite H
           | H : _ = true |- _ => rewrite H
           end; auto.
Qed.

Lemma lstrip_length (s : string) :
  (String.length (PyStr.lstrip s) <= String.length s)%nat.
Proof.
  functional induction (PyStr.lstrip s); simpl in *; lia.
Qed.

Lemma lstrip_rev_suffix (l : list ascii) :
  exists p, l = (p ++ PyStr.lstrip_rev l)%list.
Proof.
  functional induction (PyStr.lstrip_rev l);
    try (exists []; reflexivity);
    destruct IHl0 as [p Hp].
  - exists (c :: p). simpl. congruence.
  - exists (c :: b :: p). simpl. congruence.
  - exists (c :: b :: a :: p). simpl. congruence.
Qed.

Lemma lstrip_space1 (a : ascii) (r : string) :
  PyStr.space1 a = true -> PyStr.lstrip (String a r) = PyStr.lstrip r.
Proof. intros H. simpl. rewrite H. reflexivity. Qed.

Lemma lstrip_space2 (a b : ascii) (r : string) :
  PyStr.space1 a = false -> PyStr.space2 a b = true ->
  PyStr.lstrip (String a (String b r)) = PyStr.lstrip r.
Proof. intros H1 H2. cbn [PyStr.lstrip]. rewrite H1, H2. reflexivity. Qed.

Lemma lstrip_space3 (a b c : ascii) (r : string) :
  PyStr.space1 a = false -> PyStr.space2 a b = false ->
  PyStr.space3 a b c = true ->
  PyStr.lstrip (String a (String b (String c r))) = PyStr.lstrip r.
Proof.
  intros H1 H2 H3. cbn [PyStr.lstrip]. rewrite H1, H2, H3. reflexivity.
Qed.

(** A string with no blank at its head keeps none when it is cut
    short. *)
Lemma lstrip_fixed_prefix (t u rest : string) :
  PyStr.lstrip t = t -> t = u ++ rest -> PyStr.lstrip u = u.
Proof.
  intros Hfix ->.
  assert (Habsurd : forall s x : string,
             PyStr.lstrip s = x -> (String.length s < String.length x)%nat ->
             False).
  { intros s x Heq Hlen. pose proof (lstrip_length s). rewrite Heq in *. lia. }
  destruct u as [| a u]; [reflexivity |]. cbn [append] in Hfix.
  destruct (PyStr.space1 a) eqn:E1.
  { exfalso. rewrite (lstrip_space1 _ _ E1) in Hfix.
    apply (Habsurd _ _ Hfix). simpl. lia. }
  destruct u as [| b u]; [simpl; rewrite E1; reflexivity |].
  cbn [append] in Hfix.
  destruct (PyStr.space2 a b) eqn:E2.
  { exfalso. rewrite (lstrip_space2 _ _ _ E1 E2) in Hfix.
    apply (Habsurd _ _ Hfix). simpl. lia. }
  destruct u as [| c u]; [simpl; rewrite E1, E2; reflexivity |].
  cbn [append] in Hfix.
  destruct (PyStr.space3 a b c) eqn:E3.
  { exfalso. rewrite (lstrip_space3 _ _ _ _ E1 E2 E3) in Hfix.
    apply (Habsurd _ _ Hfix). simpl. lia. }
  cbn [PyStr.lstrip]. rewrite E1, E2, E3. reflexivity.
Qed.

Lemma string_of_list_ascii_app (l1 l2 : list ascii) :
  string_of_list_ascii (l1 ++ l2)
  = string_of_list_ascii l1 ++ string_of_list_ascii l2.
Proof.
  induction l1 as [| a l1 IH]; simpl; congruence.
Qed.

Lemma rstrip_prefix (t : string) : exists rest, t = PyStr.rstrip t ++ rest.
Proof.
  unfold PyStr.rstrip.
  destruct (lstrip_rev_suffix (rev (list_ascii_of_string t))) as [p Hp].
  exists (string_of_list_ascii (rev p)).
  rewrite <- string_of_list_ascii_app, <- rev_app_distr, <- Hp.
  rewrite rev_involutive, string_of_list_ascii_of_string. reflexivity.
Qed.

Lemma rstrip_idempotent (s : string) :
  PyStr.rstrip (PyStr.rstrip s) = PyStr.rstrip s.
Proof.
  unfold PyStr.rstrip.
  rewrite list_ascii_of_string_of_list_ascii, rev_involutive,
    lstrip_rev_idempotent.
  reflexivity.
Qed.

(** Trimming twice is trimming once. *)
Lemma strip_idempotent (s : string) :
  PyStr.strip (PyStr.strip s) = PyStr.strip s.
Proof.
  unfold PyStr.strip.
  destruct (rstrip_prefix (PyStr.lstrip s)) as [rest Hrest].
  rewrite (lstrip_fixed_prefix (PyStr.lstrip s)
             (PyStr.rstrip (PyStr.lstrip s)) rest
             (lstrip_idempotent s) Hrest).
  apply rstrip_idempotent.
Qed.

(* ================================================================= *)
(** ** Further properties: the view and the store *)

Lemma max_id_bound (rows : list Row.t) :
  0 <= max_id rows /\ Forall (fun r => Row.id r <= max_id rows) rows.
Proof.
  induction rows as [| r rows [IH0 IH]]; simpl.
  - split; [lia | constructor].
  - split; [lia |]. constructor; [lia |].
    rewrite Forall_forall in *. intros x Hx. specialize (IH x Hx). lia.
Qed.

Section ViewCoverage.

Variable py_float : string -> option Q.
Variable today : PyDate.t.
Variable current_timestamp : string.

Local Abbreviation view := (index py_float today current_timestamp).
Local Abbreviation add := (add_record py_float today current_timestamp).

(** The two ways [add_record] ends: one danger message and the store
    as it was, or the row appended. *)
Lemma add_record_cases (f : form) (db : database) :
  (exists message, add f db = (db, [(message, "danger")], RedirectToIndex))
  \/ (exists a ty,
        py_float (PyStr.strip (form_get_default f "amount" "")) = Some a
        /\ form_get f "type" = Some ty
        /\ (ty = "income" \/ ty = "expense")
        /\ PyStr.strip (form_get_default f "category" "") <> ""
        /\ add f db
           = (inserted current_timestamp db a ty
                (PyStr.strip (form_get_default f "category" ""))
                (PyStr.or_else (form_get f "date") (PyDate.isoformat today))
                (Some (PyStr.strip (form_get_default f "note" ""))),
              [MSG_ADDED], RedirectToIndex)).
Proof.
  destruct (py_float (PyStr.strip (form_get_default f "amount" "")))
    as [a |] eqn:Ha.
  2: { left. eexists. unfold add_record. rewrite Ha. reflexivity. }
  destruct (allowed_type (form_get f "type")) eqn:Hty.
  2: { left. eexists. unfold add_record. rewrite Ha, Hty. reflexivity. }
  destruct (PyStr.truthy (PyStr.strip (form_get_default f "category" "")))
    eqn:Hcat.
  2: { left. eexists. unfold add_record. rewrite Ha, Hty, Hcat. reflexivity. }
  right. apply allowed_type_iff in Hty.
  assert (Hty' : exists ty, form_get f "type" = Some ty
                            /\ (ty = "income" \/ ty = "expense")).
  { destruct Hty as [H | H]; rewrite H; eexists; split; eauto. }
  destruct Hty' as [ty [Hget Hkind]].
  assert (Hne : PyStr.strip (form_get_default f "category" "") <> "").
  { intros E. rewrite E in Hcat. discriminate. }
  exists a, ty.
  split; [reflexivity |]. split; [exact Hget |]. split; [exact Hkind |].
  split; [exact Hne |].
  apply add_record_accepted; assumption.
Qed.

(** The three ways [index] ends. *)
Lemma view_cases (req : request) (db : database) :
  (get_current_month_range today = None
   /\ view req db = (db, [], InternalServerError))
  \/ (exists v flashed, view req db = render v flashed db)
  \/ (method req = POST
      /\ form_get (req_form req) "action" = Some "add_record"
      /\ view req db = add (req_form req) db).
Proof.
  unfold index.
  destruct (get_current_month_range today) as [[ms me] |]; [| left; auto].
  right. destruct req as [[|] f]; cbn [method req_form]; [left; eauto |].
  destruct (form_get f "action") as [a |] eqn:Hact; [| left; eauto].
  destruct (String.eqb_spec a "add_record") as [-> | _]; [right; auto |].
  left. destruct (String.eqb a "filter"); [| eauto].
  destruct (read_filter py_float f _) as [v flashed]. eauto.
Qed.

Lemma render_db (v : locals) (flashed : list flash) (db : database) :
  out_db (render v flashed db) = db.
Proof.
  apply (render_flashes_irrelevant v flashed flashed db).
Qed.

(** The store after any request: as it was, or with one accepted row
    appended. *)
Lemma view_store_cases (req : request) (db : database) :
  out_db (view req db) = db
  \/ (exists a ty category date note,
        (ty = "income" \/ ty = "expense")
        /\ category <> ""
        /\ PyStr.strip category = category
        /\ out_db (view req db)
           = inserted current_timestamp db a ty category date note).
Proof.
  destruct (view_cases req db) as [[Hclk H] | [[v [fl H]] | [_ [_ H]]]]; rewrite H.
  - left. reflexivity.
  - left. apply render_db.
  - destruct (add_record_cases (req_form req) db)
      as [[message Hr] | [a [ty [_ [_ [Hkind [Hcat Hr]]]]]]]; rewrite Hr.
    + left. reflexivity.
    + right. exists a, ty. do 3 eexists.
      split; [exact Hkind |]. split; [exact Hcat |].
      split; [apply strip_idempotent | reflexivity].
Qed.

(** X10. The view only ever appends: after any request the rows that
    were in the store are still there, unchanged and in place, followed
    by at most one new row, and the AUTOINCREMENT counter has not gone
    down. *)
Theorem view_only_appends (req : request) (db : database) :
  exists added,
    records (out_db (view req db)) = (records db ++ added)%list
    /\ (List.length added <= 1)%nat
    /\ sqlite_sequence db <= sqlite_sequence (out_db (view req db)).
Proof.
  destruct (view_store_cases req db)
    as [H | [a [ty [cat [date [note [_ [_ [_ H]]]]]]]]]; rewrite H.
  - exists []. rewrite app_nil_r. simpl. repeat split; lia.
  - eexists. split; [reflexivity |]. simpl. split; lia.
Qed.

(** X11. Only an insert request writes: a request that is not a POST
    with the action [add_record] leaves the store as it was. *)
Theorem only_add_record_writes (req : request) (db : database) :
  method req = GET \/ form_get (req_form req) "action" <> Some "add_record" ->
  out_db (view req db) = db.
Proof.
  intros Hread.
  destruct (view_cases req db) as [[_ H] | [[v [fl H]] | [Hm [Ha H]]]].
  - rewrite H. reflexivity.
  - rewrite H. apply render_db.
  - destruct Hread as [Hget | Hother]; [congruence | contradiction].
Qed.

(** X12. The view keeps the store well formed: if the ids are distinct
    and every row has a positive id, one of the two kinds and a
    category that is trimmed and not empty, the same holds after any
    request. *)
Theorem view_keeps_store_well_formed (req : request) (db : database) :
  well_formed db -> well_formed (out_db (view req db)).
Proof.
  intros [Hnodup Hrows].
  destruct (view_store_cases req db)
    as [H | [a [ty [cat [date [note [Hkind [Hcat [Htrim H]]]]]]]]]; rewrite H.
  - split; assumption.
  - destruct (max_id_bound (records db)) as [Hpos Hmax].
    unfold inserted, well_formed. simpl. split.
    + rewrite map_app. simpl.
      apply NoDup_app.
      * exact Hnodup.
      * repeat constructor. intros [].
      * intros x Hx [<- | []].
        apply in_map_iff in Hx. destruct Hx as [r [Hid Hr]].
        rewrite Forall_forall in Hmax. specialize (Hmax r Hr). lia.
    + apply Forall_app. split; [exact Hrows |].
      constructor; [| constructor].
      unfold row_ok. simpl. repeat split; try assumption. lia.
Qed.

Lemma index_get (f : form) (db : database)
    (month_start month_end : PyDate.t) :
  get_current_month_range today = Some (month_start, month_end) ->
  view (mkreq GET f) db
  = render (mklocals (PyDate.isoformat month_start)
              (PyDate.isoformat month_end) "" None None DEFAULT_BUDGET)
      [] db.
Proof.
  intros Hclock. unfold index. rewrite Hclock. reflexivity.
Qed.

(** X14. A POST whose action is neither [add_record] nor [filter] is
    answered as a GET: the default page, nothing flashed, the store as
    it was. *)
Theorem unknown_action_is_ignored (f g : form) (db : database) :
  form_get f "action" <> Some "add_record" ->
  form_get f "action" <> Some "filter" ->
  view (mkreq POST f) db = view (mkreq GET g) db.
Proof.
  intros Hadd Hfilter. unfold index.
  destruct (get_current_month_range today) as [[ms me] |]; [| reflexivity].
  cbn [method req_form].
  destruct (form_get f "action") as [a |]; [| reflexivity].
  destruct (String.eqb_spec a "add_record") as [-> | _]; [congruence |].
  destruct (String.eqb_spec a "filter") as [-> | _]; [congruence |].
  reflexivity.
Qed.

Lemma render_page (v : locals) (flashed : list flash) (db : database) :
  render v flashed db = (db, flashed, RenderIndex (page v db)).
Proof.
  unfold render, page. rewrite get_stats_unfold. reflexivity.
Qed.

End ViewCoverage.

Lemma satisfies_filter_of_row (s e : string) (c : option string)
    (mn mx : option Q) (r r' : Row.t) :
  Detail.of_row r = Detail.of_row r' ->
  satisfies_filter s e c mn mx r = satisfies_filter s e c mn mx r'.
Proof.
  destruct r, r'. unfold Detail.of_row. simpl. intros H.
  inversion H. subst. reflexivity.
Qed.

(** A row of the store is among the records returned exactly when it
    satisfies the filter. *)
Lemma record_shown_iff (s e : string) (c : option string) (mn mx : option Q)
    (db : database) (r : Row.t) :
  In r (records db) ->
  (In (Detail.of_row r) (Stats.records (snd (get_stats s e c mn mx db)))
   <-> satisfies_filter s e c mn mx r = true).
Proof.
  intros Hr. rewrite get_stats_unfold. simpl. split.
  - intros H. apply in_map_iff in H. destruct H as [r' [E Hr']].
    apply (Permutation_in _ (order_by_Permutation _ _)) in Hr'.
    apply filter_In in Hr'. destruct Hr' as [_ Hr'].
    rewrite <- (satisfies_filter_of_row s e c mn mx _ _ E). exact Hr'.
  - intros H. apply in_map.
    apply (Permutation_in _ (Permutation_sym (order_by_Permutation _ _))).
    apply filter_In. auto.
Qed.

Lemma date_compare_not_Gt (a b : PyDate.t) :
  date_compare a b <> Gt <->
  PyDate.year a < PyDate.year b
  \/ (PyDate.year a = PyDate.year b
      /\ (PyDate.month a < PyDate.month b
          \/ (PyDate.month a = PyDate.month b
              /\ PyDate.day a <= PyDate.day b))).
Proof.
  unfold date_compare.
  destruct (Z.compare_spec (PyDate.year a) (PyDate.year b)) as [Ey | Ey | Ey].
  - destruct (Z.compare_spec (PyDate.month a) (PyDate.month b))
      as [Em | Em | Em].
    + destruct (Z.compare_spec (PyDate.day a) (PyDate.day b));
        split; intros; try lia; try discriminate; try congruence.
    + split; [lia | discriminate].
    + split; [congruence | lia].
  - split; [lia | discriminate].
  - split; [congruence | lia].
Qed.

(** A calendar day lies between the first and the last day of a month,
    as text, exactly when it is a day of that month. *)
Lemma in_month_iff (y m : Z) (day : PyDate.t) :
  1 <= y <= 9999 -> 1 <= m <= 12 -> calendar_date day ->
  (String.leb (PyDate.isoformat (PyDate.mk y m 1)) (PyDate.isoformat day)
   && String.leb (PyDate.isoformat day)
        (PyDate.isoformat (PyDate.mk y m (PyDate.days_in_month y m))) = true
   <-> PyDate.year day = y /\ PyDate.month day = m).
Proof.
  intros Hy Hm Hday.
  pose proof (days_in_month_bounds y m) as Hdim.
  assert (Hfirst : calendar_date (PyDate.mk y m 1))
    by (apply date_Some; simpl; lia).
  assert (Hlast : calendar_date (PyDate.mk y m (PyDate.days_in_month y m)))
    by (apply date_Some; simpl; lia).
  rewrite andb_true_iff.
  rewrite (isoformat_leb _ _ Hfirst Hday), (isoformat_leb _ _ Hday Hlast).
  rewrite !date_compare_not_Gt.
  apply calendar_date_inv in Hday.
  destruct day as [y' m' d']. simpl in *. split.
  - intros [H1 H2]. lia.
  - intros [-> ->]. lia.
Qed.

(* ================================================================= *)
(** ** Further properties: the pages *)

Lemma read_filter_fields (py_float : string -> option Q) (f : form)
    (defaults : locals) :
  let v := fst (read_filter py_float f defaults) in
  let bound key msg :=
    read_bound py_float (PyStr.strip (form_get_default f key "")) msg in
  l_start_date v
  = PyStr.or_else (form_get f "start_date") (l_start_date defaults)
  /\ l_end_date v = PyStr.or_else (form_get f "end_date") (l_end_date defaults)
  /\ l_category_filter v = PyStr.strip (form_get_default f "category_filter" "")
  /\ l_min_amount v = fst (bound "min_amount" MSG_MIN)
  /\ l_max_amount v = fst (bound "max_amount" MSG_MAX)
  /\ snd (read_filter py_float f defaults)
     = (snd (bound "min_amount" MSG_MIN) ++ snd (bound "max_amount" MSG_MAX)
        ++ snd (read_budget py_float
                  (PyStr.strip (form_get_default f "budget" ""))
                  (l_budget defaults)))%list.
Proof.
  unfold read_filter.
  destruct (read_bound py_float _ MSG_MIN) as [mn w1].
  destruct (read_bound py_float _ MSG_MAX) as [mx w2].
  destruct (read_budget py_float _ _) as [b w3].
  simpl. repeat split.
Qed.

Lemma read_bound_success (float : string -> option Q) (s : string)
    (msg : flash) (m : Q) :
  s <> "" -> float s = Some m -> read_bound float s msg = (Some m, []).
Proof.
  intros Hne Hm. unfold read_bound.
  rewrite (truthy_nonempty _ Hne), Hm. reflexivity.
Qed.

Lemma read_bound_flashes (float : string -> option Q) (s : string)
    (msg x : flash) :
  In x (snd (read_bound float s msg)) -> x = msg.
Proof.
  unfold read_bound.
  destruct (PyStr.truthy s); [destruct (float s) |]; simpl; intuition.
Qed.

Lemma read_budget_flashes (float : string -> option Q) (s : string)
    (b : Q) (x : flash) :
  In x (snd (read_budget float s b)) -> x = MSG_BUDGET.
Proof.
  unfold read_budget.
  destruct (PyStr.truthy s); [destruct (float s) |]; simpl; intuition.
Qed.

Section ViewPages.

Variable py_float : string -> option Q.
Variable today : PyDate.t.
Variable current_timestamp : string.

Local Abbreviation view := (index py_float today current_timestamp).

(** X15. On a calendar day before December 9999 a GET is answered with
    the page of the current month: the range runs from the first to
    the last day of today's month, and a row dated with a calendar day
    is listed exactly when that day falls in today's month. *)
Theorem default_page_shows_the_current_month (f : form) (db : database) :
  calendar_date today ->
  PyDate.year today < 9999 \/ PyDate.month today < 12 ->
  exists ctx,
    view (mkreq GET f) db = (db, [], RenderIndex ctx)
    /\ Ctx.start_date ctx
       = PyDate.isoformat
           (PyDate.mk (PyDate.year today) (PyDate.month today) 1)
    /\ Ctx.end_date ctx
       = PyDate.isoformat
           (PyDate.mk (PyDate.year today) (PyDate.month today)
              (PyDate.days_in_month (PyDate.year today) (PyDate.month today)))
    /\ forall r day,
         In r (records db) -> calendar_date day ->
         Row.date r = PyDate.isoformat day ->
         (In (Detail.of_row r) (Ctx.records ctx)
          <-> PyDate.year day = PyDate.year today
              /\ PyDate.month day = PyDate.month today).
Proof.
  intros Hcal Hnot_last.
  pose proof (month_range_first_last today Hcal Hnot_last) as Hclock.
  pose proof (calendar_date_inv today Hcal) as [Hy [Hm _]].
  rewrite (index_get py_float today current_timestamp f db _ _ Hclock).
  rewrite render_page. eexists. split; [reflexivity |].
  split; [reflexivity |]. split; [reflexivity |].
  intros r day Hr Hday Hdate. unfold page. cbn [Ctx.records].
  cbn [l_start_date l_end_date l_category_filter l_min_amount l_max_amount].
  rewrite (record_shown_iff _ _ _ _ _ db r Hr).
  unfold satisfies_filter. rewrite strip_empty. simpl String.eqb.
  rewrite !andb_true_r, Hdate.
  apply in_month_iff; assumption.
Qed.

(** X16. A row inserted without a date shows on the page served next:
    after an accepted insert request with no date field, the GET page
    of the same day lists a record with the submitted amount, kind and
    trimmed category, dated today, under an id above every id the
    store held. *)
Theorem inserted_row_shows_on_default_page (f g : form) (db : database)
    (a : Q) (ty : string) :
  calendar_date today ->
  PyDate.year today < 9999 \/ PyDate.month today < 12 ->
  form_get f "action" = Some "add_record" ->
  py_float (PyStr.strip (form_get_default f "amount" "")) = Some a ->
  form_get f "type" = Some ty ->
  ty = "income" \/ ty = "expense" ->
  PyStr.strip (form_get_default f "category" "") <> "" ->
  form_get f "date" = None \/ form_get f "date" = Some "" ->
  exists ctx d,
    out_response (view (mkreq GET g) (out_db (view (mkreq POST f) db)))
    = RenderIndex ctx
    /\ In d (Ctx.records ctx)
    /\ Detail.amount d = a
    /\ Detail.type d = ty
    /\ Detail.category d = PyStr.strip (form_get_default f "category" "")
    /\ Detail.date d = PyDate.isoformat today
    /\ Forall (fun r => Row.id r < Detail.id d) (records db).
Proof.
  intros Hcal Hnot_last Haction Ha Hty Hkind Hcat Hdate.
  pose proof (month_range_first_last today Hcal Hnot_last) as Hclock.
  pose proof (calendar_date_inv today Hcal) as [Hy [Hm _]].
  rewrite (index_add_record py_float today current_timestamp f db _ _
             Hclock Haction).
  rewrite (add_record_accepted py_float today current_timestamp f db a ty
             Ha Hty Hkind Hcat).
  assert (Htoday : PyStr.or_else (form_get f "date") (PyDate.isoformat today)
                   = PyDate.isoformat today)
    by (destruct Hdate as [-> | ->]; reflexivity).
  rewrite Htoday. cbn [out_db fst].
  rewrite (index_get py_float today current_timestamp g _ _ _ Hclock).
  rewrite render_page. cbn [out_response snd].
  set (db1 := inserted _ _ _ _ _ _ _).
  set (r := Row.mk (Z.max (sqlite_sequence db) (max_id (records db)) + 1) a ty
              (PyStr.strip (form_get_default f "category" ""))
              (PyDate.isoformat today)
              (Some (PyStr.strip (form_get_default f "note" "")))
              current_timestamp).
  assert (Hr : In r (records db1)).
  { unfold db1, inserted. cbn [records]. apply in_or_app. right. left.
    reflexivity. }
  eexists. exists (Detail.of_row r).
  split; [reflexivity |]. split.
  - unfold page. cbn [Ctx.records].
    cbn [l_start_date l_end_date l_category_filter l_min_amount l_max_amount].
    apply (record_shown_iff _ _ _ _ _ db1 r Hr).
    unfold satisfies_filter. rewrite strip_empty. simpl String.eqb.
    rewrite !andb_true_r. cbn [Row.date r].
    apply in_month_iff; auto.
  - repeat (split; [reflexivity |]).
    destruct (max_id_bound (records db)) as [_ Hmax].
    rewrite Forall_forall in *. intros x Hx. specialize (Hmax x Hx).
    simpl. lia.
Qed.

(** X17. The category filter of a filter request is the trimmed field:
    when it is not blank the page echoes it trimmed, and every record
    and every label of the breakdown carries exactly that category. *)
Theorem filter_request_category_trimmed (f : form) (db : database)
    (month_start month_end : PyDate.t) :
  get_current_month_range today = Some (month_start, month_end) ->
  form_get f "action" = Some "filter" ->
  PyStr.strip (form_get_default f "category_filter" "") <> "" ->
  exists ctx,
    out_response (view (mkreq POST f) db) = RenderIndex ctx
    /\ Ctx.category_filter ctx
       = PyStr.strip (form_get_default f "category_filter" "")
    /\ Forall (fun d => Detail.category d
                        = PyStr.strip (form_get_default f "category_filter" ""))
         (Ctx.records ctx)
    /\ Forall (fun label =>
                 label = PyStr.strip (form_get_default f "category_filter" ""))
         (Ctx.category_labels ctx).
Proof.
  intros Hclock Haction Hcat.
  rewrite (index_filter py_float today current_timestamp f db _ _
             Hclock Haction).
  rewrite render_page. cbn [out_response snd].
  destruct (read_filter_fields py_float f
              (mklocals (PyDate.isoformat month_start)
                 (PyDate.isoformat month_end) "" None None DEFAULT_BUDGET))
    as [_ [_ [Hc _]]].
  eexists. split; [reflexivity |]. unfold page.
  cbn [Ctx.category_filter Ctx.records Ctx.category_labels].
  rewrite Hc. split; [reflexivity |].
  assert (Hne : PyStr.strip
                  (PyStr.strip (form_get_default f "category_filter" ""))
                <> "")
    by (rewrite strip_idempotent; exact Hcat).
  match goal with
  | |- context [get_stats ?s ?e _ ?mn ?mx db] =>
      pose proof (stats_carry_category s e _ mn mx db Hne) as Hexact
  end.
  cbv zeta in Hexact. rewrite strip_idempotent in Hexact. exact Hexact.
Qed.

(** X18. A bound that parses is applied: when the [min_amount] or the
    [max_amount] of a filter request is a number once trimmed, the page
    echoes that number, lists only records on the allowed side of it,
    and flashes no advisory for that field. *)
Theorem valid_bound_is_applied (f : form) (db : database) (key raw : string)
    (m : Q) (month_start month_end : PyDate.t) :
  get_current_month_range today = Some (month_start, month_end) ->
  form_get f "action" = Some "filter" ->
  In key ["min_amount"; "max_amount"] ->
  form_get f key = Some raw ->
  PyStr.strip raw <> "" ->
  py_float (PyStr.strip raw) = Some m ->
  exists ctx,
    out_response (view (mkreq POST f) db) = RenderIndex ctx
    /\ (if String.eqb key "min_amount"
        then Ctx.min_amount ctx else Ctx.max_amount ctx) = Some m
    /\ Forall (fun d => within_bound key m (Detail.amount d)) (Ctx.records ctx)
    /\ ~ In (advisory key) (out_flashes (view (mkreq POST f) db)).
Proof.
  intros Hclock Haction Hkey Hraw Hne Hm.
  rewrite (index_filter py_float today current_timestamp f db _ _
             Hclock Haction).
  rewrite render_page. cbn [out_response out_flashes fst snd].
  set (defaults := mklocals _ _ _ _ _ _).
  destruct (read_filter_fields py_float f defaults)
    as [_ [_ [_ [Hmin [Hmax Hfl]]]]].
  eexists. split; [reflexivity |]. unfold page.
  cbn [Ctx.min_amount Ctx.max_amount Ctx.records].
  rewrite Hfl, Hmin, Hmax.
  assert (Hshown : forall s e c mn mx d,
             In d (Stats.records (snd (get_stats s e c mn mx db))) ->
             exists r, d = Detail.of_row r
                       /\ satisfies_filter s e c mn mx r = true).
  { intros s e c mn mx d Hd. rewrite get_stats_unfold in Hd. simpl in Hd.
    apply in_map_iff in Hd. destruct Hd as [r [<- Hr]].
    apply (Permutation_in _ (order_by_Permutation _ _)) in Hr.
    apply filter_In in Hr. exists r. tauto. }
  simpl in Hkey. destruct Hkey as [<- | [<- | []]];
    unfold form_get_default; rewrite Hraw;
    rewrite (read_bound_success _ _ _ _ Hne Hm); cbn [fst snd String.eqb].
  - split; [reflexivity |]. split.
    + rewrite Forall_forall. intros d Hd.
      apply Hshown in Hd. destruct Hd as [r [-> Hr]].
      unfold satisfies_filter in Hr. rewrite !andb_true_iff in Hr.
      destruct Hr as [[_ Hr] _]. apply Qle_bool_iff in Hr. exact Hr.
    + simpl. intros Hin. apply in_app_or in Hin.
      destruct Hin as [Hin | Hin].
      * apply read_bound_flashes in Hin. discriminate.
      * apply read_budget_flashes in Hin. discriminate.
  - split; [reflexivity |]. split.
    + rewrite Forall_forall. intros d Hd.
      apply Hshown in Hd. destruct Hd as [r [-> Hr]].
      unfold satisfies_filter in Hr. rewrite !andb_true_iff in Hr.
      destruct Hr as [_ Hr]. apply Qle_bool_iff in Hr. exact Hr.
    + rewrite app_nil_l. intros Hin. apply in_app_or in Hin.
      destruct Hin as [Hin | Hin].
      * apply read_bound_flashes in Hin. discriminate.
      * apply read_budget_flashes in Hin. discriminate.
Qed.

(** X19. An accepted insert takes a fresh id: the new row's id is above
    the AUTOINCREMENT counter and above every id in the store, the
    counter moves to it, and the note is stored trimmed, empty when
    none was sent. *)
Theorem insert_assigns_fresh_id (f : form) (db : database) (a : Q)
    (ty : string) (month_start month_end : PyDate.t) :
  get_current_month_range today = Some (month_start, month_end) ->
  form_get f "action" = Some "add_record" ->
  py_float (PyStr.strip (form_get_default f "amount" "")) = Some a ->
  form_get f "type" = Some ty ->
  ty = "income" \/ ty = "expense" ->
  PyStr.strip (form_get_default f "category" "") <> "" ->
  exists r,
    records (out_db (view (mkreq POST f) db)) = (records db ++ [r])%list
    /\ Forall (fun r0 => Row.id r0 < Row.id r) (records db)
    /\ sqlite_sequence db < Row.id r
    /\ sqlite_sequence (out_db (view (mkreq POST f) db)) = Row.id r
    /\ Row.note r = Some (PyStr.strip (form_get_default f "note" "")).
Proof.
  intros Hclock Haction Ha Hty Hkind Hcat.
  rewrite (index_add_record py_float today current_timestamp f db _ _
             Hclock Haction).
  rewrite (add_record_accepted py_float today current_timestamp f db a ty
             Ha Hty Hkind Hcat).
  eexists. split; [reflexivity |]. simpl.
  destruct (max_id_bound (records db)) as [_ Hmax].
  split; [| split; [lia | split; reflexivity]].
  rewrite Forall_forall in *. intros x Hx. specialize (Hmax x Hx). lia.
Qed.

End ViewPages.

Lemma default_page_shows_the_current_month_witness :
  exists ctx,
    sample_view (mkreq GET []) ledger_food_rent
    = (ledger_food_rent, [], RenderIndex ctx)
    /\ Ctx.start_date ctx = PyDate.isoformat (PyDate.mk 2024 1 1)
    /\ Ctx.end_date ctx = PyDate.isoformat (PyDate.mk 2024 1 31)
    /\ forall r day,
         In r (records ledger_food_rent) -> calendar_date day ->
         Row.date r = PyDate.isoformat day ->
         (In (Detail.of_row r) (Ctx.records ctx)
          <-> PyDate.year day = 2024 /\ PyDate.month day = 1).
Proof.
  apply (default_page_shows_the_current_month decimal_float sample_today
           sample_now [] ledger_food_rent).
  - reflexivity.
  - left. reflexivity.
Defined.

Lemma inserted_row_shows_on_default_page_witness :
  exists ctx d,
    out_response
      (sample_view (mkreq GET [])
         (out_db (sample_view (mkreq POST add_lunch) ledger_food_rent)))
    = RenderIndex ctx
    /\ In d (Ctx.records ctx)
    /\ Detail.amount d = (125 # 10)%Q
    /\ Detail.type d = "expense"
    /\ Detail.category d = "food"
    /\ Detail.date d = "2024-01-15"
    /\ Forall (fun r => Row.id r < Detail.id d) (records ledger_food_rent).
Proof.
  apply (inserted_row_shows_on_default_page decimal_float sample_today
           sample_now add_lunch [] ledger_food_rent (125 # 10)%Q "expense").
  - reflexivity.
  - left. reflexivity.
  - reflexivity.
  - reflexivity.
  - reflexivity.
  - right. reflexivity.
  - simpl. discriminate.
  - left. reflexivity.
Defined.

Lemma filter_request_category_trimmed_witness :
  exists ctx,
    out_response (sample_view (mkreq POST filter_food) ledger_food_rent)
    = RenderIndex ctx
    /\ Ctx.category_filter ctx = "food"
    /\ Forall (fun d => Detail.category d = "food") (Ctx.records ctx)
    /\ Forall (fun label => label = "food") (Ctx.category_labels ctx).
Proof.
  apply (filter_request_category_trimmed decimal_float sample_today sample_now
           filter_food ledger_food_rent
           (PyDate.mk 2024 1 1) (PyDate.mk 2024 1 31)).
  - reflexivity.
  - reflexivity.
  - simpl. discriminate.
Defined.

Lemma valid_bound_is_applied_witness :
  exists ctx,
    out_response (sample_view (mkreq POST filter_min_20) ledger_food_rent)
    = RenderIndex ctx
    /\ Ctx.min_amount ctx = Some (20 # 1)
    /\ Forall (fun d => within_bound "min_amount" (20 # 1) (Detail.amount d))
         (Ctx.records ctx)
    /\ ~ In (advisory "min_amount")
         (out_flashes (sample_view (mkreq POST filter_min_20) ledger_food_rent)).
Proof.
  apply (valid_bound_is_applied decimal_float sample_today sample_now
           filter_min_20 ledger_food_rent "min_amount" " 20 " (20 # 1)
           (PyDate.mk 2024 1 1) (PyDate.mk 2024 1 31)).
  - reflexivity.
  - reflexivity.
  - simpl. left. reflexivity.
  - reflexivity.
  - simpl. discriminate.
  - reflexivity.
Defined.

Lemma insert_assigns_fresh_id_witness :
  exists r,
    records (out_db (sample_view (mkreq POST add_lunch) ledger_food_rent))
    = (records ledger_food_rent ++ [r])%list
    /\ Forall (fun r0 => Row.id r0 < Row.id r) (records ledger_food_rent)
    /\ sqlite_sequence ledger_food_rent < Row.id r
    /\ sqlite_sequence
         (out_db (sample_view (mkreq POST add_lunch) ledger_food_rent))
       = Row.id r
    /\ Row.note r = Some "lunch".
Proof.
  apply (insert_assigns_fresh_id decimal_float sample_today sample_now
           add_lunch ledger_food_rent (125 # 10)%Q "expense"
           (PyDate.mk 2024 1 1) (PyDate.mk 2024 1 31)).
  - reflexivity.
  - reflexivity.
  - reflexivity.
  - reflexivity.
  - right. reflexivity.
  - simpl. discriminate.
Defined.

Lemma only_add_record_writes_witness :
  out_db (sample_view (mkreq POST filter_food) ledger_food_rent)
  = ledger_food_rent.
Proof.
  apply (only_add_record_writes decimal_float sample_today sample_now
           (mkreq POST filter_food) ledger_food_rent).
  right. simpl. discriminate.
Defined.

Lemma ledger_food_rent_well_formed : well_formed ledger_food_rent.
Proof.
  split; simpl.
  - constructor; [simpl; intros [H | []]; discriminate |].
    constructor; [intros [] | constructor].
  - repeat (apply Forall_cons; [unfold row_ok; simpl; repeat split;
                                  (lia || auto || discriminate) |]).
    apply Forall_nil.
Defined.

Lemma view_keeps_store_well_formed_witness :
  well_formed (out_db (sample_view (mkreq POST add_lunch) ledger_food_rent)).
Proof.
  apply (view_keeps_store_well_formed decimal_float sample_today sample_now
           (mkreq POST add_lunch) ledger_food_rent).
  exact ledger_food_rent_well_formed.
Defined.

Lemma unknown_action_is_ignored_witness :
  sample_view (mkreq POST post_export) ledger_food_rent
  = sample_view (mkreq GET []) ledger_food_rent.
Proof.
  apply (unknown_action_is_ignored decimal_float sample_today sample_now
           post_export [] ledger_food_rent).
  - simpl. discriminate.
  - simpl. discriminate.
Defined.

(* ================================================================= *)
(** ** Sums that round *)

Lemma get_stats_with_exact :
  forall s e c mn mx db, get_stats_with Qplus s e c mn mx db = get_stats s e c mn mx db.
Proof. reflexivity. Qed.

Lemma round_double_proper : Proper (Qeq ==> Qeq) round_double.
Proof.
  intros x y Hxy. unfold round_double.
  rewrite (Qred_complete x y Hxy). reflexivity.
Qed.

Lemma double_add_proper : Proper (Qeq ==> Qeq ==> Qeq) double_add.
Proof.
  intros x x' Hx y y' Hy. unfold double_add.
  apply round_double_proper. rewrite Hx, Hy. reflexivity.
Qed.

(** C1, as stated, fails.  With the expenses 1e16 and 1.0 in one
    category and -1e16 in another, [total_expense] is 1.0 while the
    amounts of the breakdown, 1e16 and -1e16, add up to 0.0: the two
    differ by 1, beyond any epsilon. *)
Lemma breakdown_sum_differs_from_total :
  let stats := snd (get_stats_with double_add "2024-01-01" "2024-01-31"
                      None None None ledger_cancelling) in
  Stats.total_expense stats = 1%Q
  /\ Stats.category_amounts stats
     = [10000000000000000%Q; (-10000000000000000)%Q]
  /\ py_sum_with double_add (Stats.category_amounts stats) = 0%Q
  /\ ~ (Qabs (py_sum_with double_add (Stats.category_amounts stats)
              - Stats.total_expense stats) <= 1 # 1000000000)%Q.
Proof.
  cbv zeta. split; [vm_compute; reflexivity |].
  split; [vm_compute; reflexivity |]. split; [vm_compute; reflexivity |].
  intros H. vm_compute in H. apply H. reflexivity.
Qed.

(** C2, as stated, fails.  On the same store the expenses are listed
    1.0, 1e16, -1e16 and add up to 0.0 in that order, while
    [total_expense], added in the order of insertion, is 1.0. *)
Lemma listed_sum_differs_from_total :
  let stats := snd (get_stats_with double_add "2024-01-01" "2024-01-31"
                      None None None ledger_cancelling) in
  Stats.total_expense stats = 1%Q
  /\ listed_amounts "expense" stats
     = [1%Q; 10000000000000000%Q; (-10000000000000000)%Q]
  /\ py_sum_with double_add (listed_amounts "expense" stats) = 0%Q
  /\ ~ (py_sum_with double_add (listed_amounts "expense" stats)
        == Stats.total_expense stats)%Q.
Proof.
  cbv zeta. split; [vm_compute; reflexivity |].
  split; [vm_compute; reflexivity |]. split; [vm_compute; reflexivity |].
  intros H. vm_compute in H. discriminate H.
Qed.

Lemma py_sum_app (l1 l2 : list Q) :
  (py_sum (l1 ++ l2) == py_sum l1 + py_sum l2)%Q.
Proof.
  induction l1 as [| x l1 IH]; simpl.
  - rewrite py_sum_nil. ring.
  - rewrite !py_sum_cons, IH. ring.
Qed.

Lemma part_of_refl (A : list Q) : part_of A A.
Proof. exists []. rewrite app_nil_r. apply Permutation_refl. Qed.

Lemma part_of_app_l (l1 l2 A : list Q) : part_of (l1 ++ l2) A -> part_of l1 A.
Proof.
  intros [rest H]. exists (l2 ++ rest)%list. rewrite app_assoc. exact H.
Qed.

Lemma part_of_Permutation (l l' A : list Q) :
  Permutation l l' -> part_of l' A -> part_of l A.
Proof.
  intros Hp [rest H]. exists rest.
  apply perm_trans with (l' ++ rest)%list; [| exact H].
  apply Permutation_app_tail. exact Hp.
Qed.

Lemma part_of_trans (l A B : list Q) : part_of l A -> part_of A B -> part_of l B.
Proof.
  intros [r1 H1] [r2 H2]. exists (r1 ++ r2)%list.
  rewrite app_assoc.
  apply perm_trans with (A ++ r2)%list; [| exact H2].
  apply Permutation_app_tail. exact H1.
Qed.

Lemma filter_part {A : Type} (p : A -> bool) (l : list A) :
  Permutation (filter p l ++ filter (fun x => negb (p x)) l) l.
Proof.
  induction l as [| x l IH]; simpl.
  - constructor.
  - destruct (p x); simpl.
    + constructor. exact IH.
    + apply Permutation_sym, Permutation_cons_app, Permutation_sym. exact IH.
Qed.

Lemma part_of_filter (p : Row.t -> bool) (rows : list Row.t) :
  part_of (map Row.amount (filter p rows)) (map Row.amount rows).
Proof.
  exists (map Row.amount (filter (fun x => negb (p x)) rows)).
  rewrite <- map_app. apply Permutation_map, filter_part.
Qed.

Section RoundedSums.

Variable add : Q -> Q -> Q.
Hypothesis add_proper : Proper (Qeq ==> Qeq ==> Qeq) add.

Variable A : list Q.
Hypothesis add_exact : no_rounding add A.

Lemma fold_left_add_proper (l : list Q) (a b : Q) :
  (a == b)%Q -> (fold_left add l a == fold_left add l b)%Q.
Proof.
  revert a b. induction l as [| x l IH]; intros a b Hab; simpl.
  - exact Hab.
  - apply IH. rewrite Hab. reflexivity.
Qed.

(** Lists of totals added one after the other: when each total is the
    exact sum of its group and the groups together are part of [A],
    the result is the exact sum of all the groups. *)
Lemma sum_of_totals (totals : list Q) (groups : list (list Q)) :
  Forall2 (fun t g => (t == py_sum g)%Q) totals groups ->
  forall (acc : Q) (done : list Q),
    (acc == py_sum done)%Q ->
    part_of (done ++ List.concat groups) A ->
    (fold_left add totals acc == py_sum (done ++ List.concat groups))%Q.
Proof.
  induction 1 as [| t g totals groups Ht _ IH]; intros acc done Hacc Hpart;
    simpl in *.
  - rewrite app_nil_r. exact Hacc.
  - rewrite app_assoc in Hpart |- *. apply IH; [| exact Hpart].
    rewrite Hacc, Ht, py_sum_app.
    apply add_exact. exact (part_of_app_l _ _ _ Hpart).
Qed.

(** A part of [A] added one element after the other gives its exact
    sum. *)
Lemma py_sum_with_exact (l : list Q) :
  part_of l A -> (py_sum_with add l == py_sum l)%Q.
Proof.
  intros Hpart. unfold py_sum_with.
  assert (Hgroups : List.concat (map (fun x => [x]) l) = l).
  { clear. induction l as [| x l IH]; simpl; congruence. }
  rewrite <- Hgroups at 2.
  apply (sum_of_totals l (map (fun x => [x]) l)) with (done := []).
  - clear. induction l as [| x l IH]; simpl; constructor; auto.
    rewrite py_sum_cons, py_sum_nil. ring.
  - reflexivity.
  - simpl. rewrite Hgroups. exact Hpart.
Qed.

Lemma sql_sum_with_exact (l : list Q) :
  part_of l A -> (coalesce (sql_sum_with add l) 0 == py_sum l)%Q.
Proof.
  intros Hpart. destruct l as [| x l]; simpl; [reflexivity |].
  rewrite <- (py_sum_with_exact (x :: l) Hpart).
  unfold py_sum_with. simpl. apply fold_left_add_proper.
  assert (Hx : (x == py_sum [x])%Q)
    by (rewrite py_sum_cons, py_sum_nil; ring).
  rewrite Hx at 2.
  change 0%Q with (py_sum []) at 1.
  rewrite (add_exact [] [x]).
  - rewrite py_sum_nil, <- Hx. ring.
  - apply (part_of_app_l _ l). exact Hpart.
Qed.

End RoundedSums.

Lemma get_stats_with_unfold (add : Q -> Q -> Q) (s e : string)
    (c : option string) (mn mx : option Q) (db : database) :
  get_stats_with add s e c mn mx db =
  (db,
   Stats.mk
     (or_zero (coalesce (sql_sum_with add
                           (map Row.amount (matching "income" s e c mn mx db))) 0))
     (or_zero (coalesce (sql_sum_with add
                           (map Row.amount (matching "expense" s e c mn mx db))) 0))
     (map fst (order_by total_desc
                 (group_by_category_with add (matching "expense" s e c mn mx db))))
     (map snd (order_by total_desc
                 (group_by_category_with add (matching "expense" s e c mn mx db))))
     (map Detail.of_row
        (order_by date_desc_id_desc
           (filter (satisfies_filter s e c mn mx) (records db))))).
Proof.
  unfold get_stats_with, select_total_with, select_by_category_with,
    select_details, get_db_connection, close, matching. simpl.
  rewrite !(filter_ext_eq
              (fun r => type_is _ r && where_clause (build_conditions s e c mn mx) r)
              (fun r => type_is _ r && satisfies_filter s e c mn mx r))
    by (intros; rewrite where_clause_spec; reflexivity).
  rewrite (filter_ext_eq (where_clause (build_conditions s e c mn mx))
             (satisfies_filter s e c mn mx))
    by (intros; apply where_clause_spec).
  reflexivity.
Qed.

(** The groups of GROUP BY are a partition of the rows. *)
Lemma groups_partition (cs : list string) :
  NoDup cs ->
  forall rows : list Row.t,
    (forall r, In r rows -> In (Row.category r) cs) ->
    Permutation
      (flat_map (fun c => filter (fun r => String.eqb (Row.category r) c) rows)
         cs)
      rows.
Proof.
  induction 1 as [| c cs Hnotin Hnodup IH]; intros rows Hcover.
  - destruct rows as [| r rows]; [constructor |].
    destruct (Hcover r (or_introl eq_refl)).
  - simpl.
    set (others := filter (fun r => negb (String.eqb (Row.category r) c)) rows).
    apply perm_trans
      with (filter (fun r => String.eqb (Row.category r) c) rows ++ others)%list;
      [| apply filter_part].
    apply Permutation_app_head.
    assert (Hsame : forall c', In c' cs ->
               filter (fun r => String.eqb (Row.category r) c') rows
               = filter (fun r => String.eqb (Row.category r) c') others).
    { intros c' Hc'. unfold others. rewrite filter_filter.
      apply filter_ext_eq. intros r.
      destruct (String.eqb_spec (Row.category r) c') as [E | _]; [| reflexivity].
      destruct (String.eqb_spec (Row.category r) c) as [E' | _]; [| reflexivity].
      exfalso. apply Hnotin. congruence. }
    assert (Hflat : forall l, incl l cs ->
               flat_map
                 (fun c' => filter (fun r => String.eqb (Row.category r) c') rows) l
               = flat_map
                   (fun c' => filter (fun r => String.eqb (Row.category r) c')
                                others) l).
    { induction l as [| c' l IHl]; intros Hincl; simpl; [reflexivity |].
      rewrite Hsame by (apply Hincl; left; reflexivity).
      rewrite IHl; [reflexivity |].
      intros x Hx. apply Hincl. right. exact Hx. }
    rewrite (Hflat cs (incl_refl cs)). apply IH.
    intros r Hr. unfold others in Hr. apply filter_In in Hr.
    destruct Hr as [Hr Hne]. destruct (Hcover r Hr) as [E | Hin]; [| exact Hin].
    rewrite <- E, String.eqb_refl in Hne. discriminate.
Qed.

Lemma Forall2_maps {X Y Z : Type} (R : Y -> Z -> Prop) (f : X -> Y)
    (g : X -> Z) (l : list X) :
  (forall x, In x l -> R (f x) (g x)) -> Forall2 R (map f l) (map g l).
Proof.
  induction l as [| x l IH]; intros H; simpl; constructor.
  - apply H. left. reflexivity.
  - apply IH. intros y Hy. apply H. right. exact Hy.
Qed.

Lemma map_flat_map {X Y Z : Type} (f : Y -> Z) (g : X -> list Y) (l : list X) :
  map f (flat_map g l) = flat_map (fun x => map f (g x)) l.
Proof.
  induction l as [| x l IH]; simpl; [reflexivity |].
  rewrite map_app, IH. reflexivity.
Qed.

Lemma flat_map_of_map {X Y Z : Type} (f : X -> Y) (g : Y -> list Z)
    (l : list X) :
  flat_map g (map f l) = flat_map (fun x => g (f x)) l.
Proof.
  induction l as [| x l IH]; simpl; [reflexivity |].
  rewrite IH. reflexivity.
Qed.

(** C1, amended.  For every store and every filter, whenever no
    addition among the matching expense amounts rounds, the amounts of
    the category breakdown add up to [total_expense] exactly. *)
Theorem breakdown_sum_without_rounding (add : Q -> Q -> Q)
    (start_date end_date : string) (category : option string)
    (min_amount max_amount : option Q) (db : database) :
  Proper (Qeq ==> Qeq ==> Qeq) add ->
  no_rounding add
    (map Row.amount
       (matching "expense" start_date end_date category min_amount max_amount
          db)) ->
  let stats := snd (get_stats_with add start_date end_date category
                      min_amount max_amount db) in
  (py_sum_with add (Stats.category_amounts stats)
   == Stats.total_expense stats)%Q.
Proof.
  intros Hproper Hexact. rewrite get_stats_with_unfold. simpl.
  set (rows := matching "expense" start_date end_date category min_amount
                 max_amount db) in *.
  set (sorted := order_by total_desc (group_by_category_with add rows)).
  set (group := fun ct : string * Q =>
                  map Row.amount
                    (filter (fun r => String.eqb (Row.category r) (fst ct))
                       rows)).
  assert (Hsorted : Permutation sorted (group_by_category_with add rows))
    by apply order_by_Permutation.
  assert (Hgroups : Permutation (List.concat (map group sorted))
                      (map Row.amount rows)).
  { rewrite <- flat_map_concat_map, Hsorted.
    unfold group_by_category_with. rewrite flat_map_of_map. unfold group.
    simpl. rewrite <- map_flat_map. apply Permutation_map.
    apply groups_partition; [apply NoDup_nodup |].
    intros r Hr. apply nodup_In, in_map. exact Hr. }
  rewrite or_zero_eq,
    (sql_sum_with_exact add Hproper _ Hexact _ (part_of_refl _)).
  rewrite <- (py_sum_Permutation _ _ Hgroups).
  apply (sum_of_totals add Hproper _ Hexact (map snd sorted) (map group sorted))
    with (done := []).
  - apply Forall2_maps. intros ct Hct.
    apply (Permutation_in _ Hsorted) in Hct.
    unfold group_by_category_with in Hct. apply in_map_iff in Hct.
    destruct Hct as [c [<- _]]. unfold group. simpl.
    apply (sql_sum_with_exact add Hproper _ Hexact). apply part_of_filter.
  - reflexivity.
  - simpl. apply (part_of_Permutation _ _ _ Hgroups), part_of_refl.
Qed.

(** C2, amended.  For every store and every filter, whenever no
    addition among the matching amounts of a kind rounds, the amounts
    of the returned records of that kind, added in the order listed,
    equal the total of that kind; on an empty store both totals are 0
    and the breakdown and the records are empty. *)
Theorem listed_sums_without_rounding (add : Q -> Q -> Q)
    (start_date end_date : string) (category : option string)
    (min_amount max_amount : option Q) (db : database) :
  Proper (Qeq ==> Qeq ==> Qeq) add ->
  no_rounding add
    (map Row.amount
       (matching "expense" start_date end_date category min_amount max_amount
          db)) ->
  no_rounding add
    (map Row.amount
       (matching "income" start_date end_date category min_amount max_amount
          db)) ->
  let stats := snd (get_stats_with add start_date end_date category
                      min_amount max_amount db) in
  (py_sum_with add (listed_amounts "expense" stats)
   == Stats.total_expense stats)%Q
  /\ (py_sum_with add (listed_amounts "income" stats)
      == Stats.total_income stats)%Q
  /\ (forall seq,
        snd (get_stats_with add start_date end_date category min_amount
               max_amount (mkdb [] seq))
        = Stats.mk 0 0 [] [] []).
Proof.
  intros Hproper Hexpense Hincome.
  assert (Hkind : forall ty,
             no_rounding add
               (map Row.amount
                  (matching ty start_date end_date category min_amount
                     max_amount db)) ->
             (py_sum_with add
                (listed_amounts ty
                   (snd (get_stats_with add start_date end_date category
                           min_amount max_amount db)))
              == coalesce
                   (sql_sum_with add
                      (map Row.amount
                         (matching ty start_date end_date category min_amount
                            max_amount db))) 0)%Q).
  { intros ty Hexact. rewrite get_stats_with_unfold.
    unfold listed_amounts. cbn [snd Stats.records].
    rewrite filter_map_of_row, map_map.
    change (fun x : Row.t => Detail.amount (Detail.of_row x)) with Row.amount.
    assert (Hperm : Permutation
                      (map Row.amount
                         (filter (type_is ty)
                            (order_by date_desc_id_desc
                               (filter
                                  (satisfies_filter start_date end_date category
                                     min_amount max_amount) (records db)))))
                      (map Row.amount
                         (matching ty start_date end_date category min_amount
                            max_amount db))).
    { apply Permutation_map. unfold matching. rewrite <- filter_filter.
      apply filter_Permutation, order_by_Permutation. }
    rewrite (py_sum_with_exact add Hproper _ Hexact _
               (part_of_Permutation _ _ _ Hperm (part_of_refl _))).
    rewrite (py_sum_Permutation _ _ Hperm).
    symmetry.
    apply (sql_sum_with_exact add Hproper _ Hexact), part_of_refl. }
  split; [| split].
  - rewrite (Hkind "expense" Hexpense), get_stats_with_unfold. simpl.
    rewrite or_zero_eq. reflexivity.
  - rewrite (Hkind "income" Hincome), get_stats_with_unfold. simpl.
    rewrite or_zero_eq. reflexivity.
  - intros seq. reflexivity.
Qed.

Lemma part_of_bounds (l A : list Q) :
  part_of l A -> (List.length l <= List.length A)%nat /\ incl l A.
Proof.
  intros [rest H]. split.
  - apply Permutation_length in H. rewrite length_app in H. lia.
  - intros x Hx. apply (Permutation_in _ H). apply in_or_app. left. exact Hx.
Qed.

(** Sums of at most two amounts taken from a short list of small whole
    numbers: [double_add] rounds none of them. *)
Ltac no_rounding_by_cases :=
  let l1 := fresh "l1" in
  let l2 := fresh "l2" in
  let Hpart := fresh "Hpart" in
  let Hlen := fresh "Hlen" in
  let Hincl := fresh "Hincl" in
  intros l1 l2 Hpart;
  destruct (part_of_bounds _ _ Hpart) as [Hlen Hincl];
  rewrite length_app in Hlen; clear Hpart;
  destruct l1 as [| ? [| ? [| ? l1]]]; destruct l2 as [| ? [| ? [| ? l2]]];
  simpl in Hlen; try lia;
  repeat match goal with
         | x : Q |- _ =>
             let H := fresh in
             assert (H : In x _) by (apply Hincl; simpl; tauto);
             simpl in H; decompose [or] H; clear H;
             try contradiction; subst x
         end;
  vm_compute; reflexivity.

Lemma double_add_exact_10_50 : no_rounding double_add [10%Q; 50%Q].
Proof. no_rounding_by_cases. Qed.

Lemma double_add_exact_20_15 : no_rounding double_add [20%Q; 15%Q].
Proof. no_rounding_by_cases. Qed.

Lemma double_add_exact_35 : no_rounding double_add [35%Q].
Proof. no_rounding_by_cases. Qed.

(** The expenses of 10 and 50, added as doubles. *)
Lemma breakdown_sum_without_rounding_witness :
  let stats := snd (get_stats_with double_add "2024-01-01" "2024-01-31"
                      None None None ledger_food_rent) in
  (py_sum_with double_add (Stats.category_amounts stats)
   == Stats.total_expense stats)%Q.
Proof.
  apply (breakdown_sum_without_rounding double_add "2024-01-01" "2024-01-31"
           None None None ledger_food_rent).
  - exact double_add_proper.
  - exact double_add_exact_10_50.
Defined.

(** The expenses of 20 and 15 and the income of 35, added as
    doubles. *)
Lemma listed_sums_without_rounding_witness :
  let stats := snd (get_stats_with double_add "2024-01-01" "2024-01-31"
                      None None None ledger_three_dates) in
  (py_sum_with double_add (listed_amounts "expense" stats)
   == Stats.total_expense stats)%Q
  /\ (py_sum_with double_add (listed_amounts "income" stats)
      == Stats.total_income stats)%Q
  /\ (forall seq,
        snd (get_stats_with double_add "2024-01-01" "2024-01-31" None None None
               (mkdb [] seq))
        = Stats.mk 0 0 [] [] []).
Proof.
  apply (listed_sums_without_rounding double_add "2024-01-01" "2024-01-31"
           None None None ledger_three_dates).
  - exact double_add_proper.
  - exact double_add_exact_20_15.
  - exact double_add_exact_35.
Defined.

(* ================================================================= *)
(** ** Amounts that are not finite *)

(** On the amounts that [float] reads as finite numbers, [add_record_py]
    is [add_record]. *)
Lemma add_record_py_finite (float : string -> option py_number)
    (py_float : string -> option Q) (today : PyDate.t) (now : string)
    (f : form) (db : database) :
  (forall s, float s = option_map Finite (py_float s)) ->
  add_record_py float today now f db
  = Some (add_record py_float today now f db).
Proof.
  intros Hfinite. unfold add_record_py, add_record. rewrite Hfinite.
  destruct (py_float _) as [a |]; simpl; [| reflexivity].
  destruct (negb (allowed_type (form_get f "type"))); [reflexivity |].
  destruct (negb (PyStr.truthy _)); [reflexivity |].
  destruct (insert_record _ _ _ _ _ _ _); reflexivity.
Qed.


(** C8.  The insert request with the amount "nan", a valid kind and a
    category: [float] reads the amount without a [ValueError], the
    checks of kind and category pass, and the INSERT raises; the
    answer is a server error with nothing flashed and no row added. *)
Lemma insert_nan_is_a_server_error :
  float_literal (PyStr.strip (form_get_default add_nan "amount" ""))
  = Some NaN
  /\ add_record_py float_literal sample_today sample_now add_nan
       ledger_food_rent
     = Some (ledger_food_rent, [], InternalServerError).
Proof.
  split; reflexivity.
Qed.


